(** * express-jobly: the dynamic SQL construction layer

    A shallow embedding of [helpers/sql.js] ([sqlForPartialUpdate]) and of
    the [findAll] methods of [models/company.js] and [models/job.js], with
    the properties of the clause text and of the positional parameters
    they hand to the database driver.

    JavaScript objects are kept as association lists in [Object.keys]
    order, since [sqlForPartialUpdate] numbers its placeholders by that
    order; the column-name table [jsToSql] is only ever looked up by key
    and is a finite map of its own entries, behind which a lookup finds
    the members of [Object.prototype]. *)

From Stdlib Require Import String Ascii List ZArith QArith Lia.
From Stdlib Require Import Decimal DecimalNat DecimalString.
From stdpp Require Import base list strings gmap.

Close Scope Q_scope.
Close Scope Z_scope.
Open Scope string_scope.
Open Scope list_scope.

#[local] Arguments append _ _ : simpl nomatch.

(** ** JavaScript values *)

(** A JavaScript number by its exact value: the doubles are the two
    infinities, NaN and a set of rationals (the two zeros compare equal
    and are one value here). *)
Inductive number :=
  | NaN
  | Infinity (negative : bool)
  | Fin (q : Q).

(** The scalars a request or an update carries. *)
Inductive value :=
  | VUndefined
  | VNull
  | VBool (b : bool)
  | VNum (n : number)
  | VStr (s : string).

(** An integer literal such as [32] or [0]. *)
Definition VInt (z : Z) : value := VNum (Fin (inject_Z z)).

(** An object: its own enumerable string-keyed properties, in the order
    [Object.keys] lists them.  The keys of a real object are distinct. *)
Abbreviation object := (list (string * value)).

Definition Object_keys (o : object) : list string := o.*1.
Definition Object_values (o : object) : list value := o.*2.

Definition wf_object (o : object) : Prop := NoDup (Object_keys o).

Fixpoint own_property (key : string) (o : object) : option value :=
  match o with
  | [] => None
  | (k, v) :: o' => if String.eqb k key then Some v else own_property key o'
  end.

(** [key in o].  The keys the models test are not members of
    [Object.prototype], so only own properties are looked at. *)
Definition has_key (key : string) (o : object) : bool :=
  match own_property key o with Some _ => true | None => false end.

(** [o.key], [undefined] when the property is missing. *)
Definition get_property (o : object) (key : string) : value :=
  default VUndefined (own_property key o).

(** [o.key = v]: an own property keeps its place, a new one comes last. *)
Fixpoint set_property (o : object) (key : string) (v : value) : object :=
  match o with
  | [] => [(key, v)]
  | (k, w) :: o' =>
      if String.eqb k key then (k, v) :: o' else (k, w) :: set_property o' key v
  end.

(** [v === true]. *)
Definition is_true (v : value) : bool :=
  match v with VBool true => true | _ => false end.

(** The engine's [StringToNumber] (whitespace, signs, fractions,
    exponents, hexadecimal forms, rounding to a double) is left to the
    engine: the models only compare its results. *)
Class Engine := StringToNumber : string -> number.

(** [Number(v)]. *)
Definition Number `{Engine} (v : value) : number :=
  match v with
  | VUndefined => NaN
  | VNull => Fin 0
  | VBool true => Fin 1
  | VBool false => Fin 0
  | VNum n => n
  | VStr s => StringToNumber s
  end.

(** [a > b] on numbers: false as soon as one side is NaN. *)
Definition gt (a b : number) : bool :=
  match a, b with
  | NaN, _ | _, NaN => false
  | Infinity true, _ => false
  | _, Infinity false => false
  | Infinity false, _ => true
  | Fin _, Infinity true => true
  | Fin x, Fin y => negb (Qle_bool x y)
  end.

(** ** Errors *)

(** The argument of [new BadRequestError(...)]: none (the message is then
    left to [expressError.js]), a text, or the array of the validator's
    error stacks. *)
Inductive message :=
  | NoMessage
  | Message (s : string)
  | Stacks (errs : list string).

Inductive exn :=
  | BadRequestError (m : message).

Inductive completion (A : Type) :=
  | Return (a : A)
  | Throw (e : exn).
Arguments Return {A} a.
Arguments Throw {A} e.

(** ** Strings *)

Definition dquote : ascii := "034"%char.
Definition squote : ascii := "039"%char.
Definition dq : string := String dquote EmptyString.

(** [`${n}`] for an array length: its decimal digits. *)
Definition show (n : nat) : string := NilZero.string_of_uint (Nat.to_uint n).

(** [Array.prototype.join] on an array of strings. *)
Definition join (sep : string) (l : list string) : string := String.concat sep l.

(** [Array.prototype.push] *)
Definition push {A} (l : list A) (x : A) : list A := l ++ [x].

(** [String.prototype.includes] *)
Fixpoint includes (s needle : string) : bool :=
  String.prefix needle s ||
  match s with
  | EmptyString => false
  | String _ s' => includes s' needle
  end.

(** [has_char c s]: the character occurs in [s]. *)
Fixpoint has_char (c : ascii) (s : string) : bool :=
  match s with
  | EmptyString => false
  | String c' s' => Ascii.eqb c' c || has_char c s'
  end.

(** ** Positional placeholders of a statement

    What the database reads as parameter references in a clause: a [$]
    followed by digits, outside a double-quoted identifier and outside a
    single-quoted literal.  [placeholders] lists them left to right.
    (A doubled quote inside an identifier closes and reopens it, which
    reads the same; comments and dollar-quoted strings are not read, the
    fixed text of the clauses having none.) *)

Inductive lex :=
  | Code
  | Ident
  | Literal
  | Dollar
  | Param (n : nat).

Definition digit (c : ascii) : option nat :=
  let n := nat_of_ascii c in
  if ((48 <=? n) && (n <=? 57))%nat then Some (n - 48) else None.

Definition code_char (c : ascii) : lex :=
  if Ascii.eqb c dquote then Ident
  else if Ascii.eqb c squote then Literal
  else if Ascii.eqb c "$" then Dollar
  else Code.

Definition lex_step (st : lex) (c : ascii) : lex * list nat :=
  match st with
  | Code => (code_char c, [])
  | Ident => (if Ascii.eqb c dquote then Code else Ident, [])
  | Literal => (if Ascii.eqb c squote then Code else Literal, [])
  | Dollar =>
      match digit c with
      | Some d => (Param d, [])
      | None => (code_char c, [])
      end
  | Param n =>
      match digit c with
      | Some d => (Param (10 * n + d), [])
      | None => (code_char c, [n])
      end
  end.

Definition lex_end (st : lex) : list nat :=
  match st with Param n => [n] | _ => [] end.

Fixpoint scan (st : lex) (s : string) : list nat :=
  match s with
  | EmptyString => lex_end st
  | String c s' => let '(st', out) := lex_step st c in out ++ scan st' s'
  end.

Definition placeholders (s : string) : list nat := scan Code s.

(** A clause and its parameters agree when the clause refers to [$1],
    ..., [$n] once each, in this order, [n] being the number of
    parameters. *)
Definition numbered (clause : string) (params : list value) : Prop :=
  placeholders clause = seq 1 (length params).

(** ** helpers/sql.js *)

(** The text [`"${name}"=$${position}`] of one assignment. *)
Definition assignment (name : string) (position : nat) : string :=
  dq +:+ name +:+ dq +:+ "=$" +:+ show position.

(** What an object literal inherits from [Object.prototype], by name,
    as the text Node gives it in a template literal: a native function
    reads [function name() { [native code] }], and [__proto__] is the
    prototype itself, which reads [[object Object]]. *)
Definition native_function (name : string) : string :=
  "function " +:+ name +:+ "() { [native code] }".

Definition Object_prototype (key : string) : option string :=
  if String.eqb key "constructor" then Some (native_function "Object")
  else if existsb (String.eqb key)
            ["__defineGetter__"; "__defineSetter__"; "hasOwnProperty";
             "__lookupGetter__"; "__lookupSetter__"; "isPrototypeOf";
             "propertyIsEnumerable"; "toString"; "valueOf"; "toLocaleString"]
  then Some (native_function key)
  else if String.eqb key "__proto__" then Some "[object Object]"
  else None.

Module Sql.

Record result := { setCols : string; values : list value }.

(** [jsToSql[colName] || colName].  The table's own entries are column
    names, and an empty one is falsy; a key with no entry of its own is
    looked up in [Object.prototype], whose members are all truthy; a key
    found nowhere is [undefined].  The falsy cases give [colName]. *)
Definition column (jsToSql : gmap string string) (colName : string) : string :=
  match jsToSql !! colName with
  | Some name => if String.eqb name "" then colName else name
  | None =>
      match Object_prototype colName with
      | Some member => member
      | None => colName
      end
  end.

Definition sqlForPartialUpdate (dataToUpdate : object)
    (jsToSql : gmap string string) : completion result :=
  let keys := Object_keys dataToUpdate in
  if (length keys =? 0)%nat then Throw (BadRequestError (Message "No data"))
  else
    let cols :=
      imap (fun idx colName =>
              dq +:+ column jsToSql colName +:+ dq +:+ "=$" +:+ show (idx + 1))
           keys in
    Return {| setCols := join ", " cols;
              values := Object_values dataToUpdate |}.

End Sql.

(** The call [db.query(text, params)] a model hands to the driver. *)
Record query := { text : string; params : list value }.

(** The two arrays a [findAll] fills before it assembles its statement. *)
Record filters := { conditions : list string; values : list value }.

Definition push_condition (st : filters) (condition : string) : filters :=
  {| conditions := push (conditions st) condition; values := values st |}.

Definition push_value (st : filters) (v : value) : filters :=
  {| conditions := conditions st; values := push (values st) v |}.

Definition no_filters : filters := {| conditions := []; values := [] |}.

(** ['WHERE ' + conditions.join(' AND ')], or the empty string. *)
Definition whereClause (st : filters) : string :=
  if (0 <? length (conditions st))%nat
  then "WHERE " +:+ join " AND " (conditions st)
  else "".

(** ** models/company.js *)

Module Company.

Definition name_filter (queries : object) (st : filters) : filters :=
  if has_key "name" queries then
    let st := push_condition st
      ("name ILIKE '%' || $" +:+ show (length (values st) + 1) +:+ " || '%'") in
    push_value st (get_property queries "name")
  else st.

Definition minEmployees_filter (queries : object) (st : filters) : filters :=
  if has_key "minEmployees" queries then
    let st := push_condition st
      ("num_employees >= $" +:+ show (length (values st) + 1)) in
    push_value st (get_property queries "minEmployees")
  else st.

Definition maxEmployees_filter (queries : object) (st : filters) : filters :=
  if has_key "maxEmployees" queries then
    let st := push_condition st
      ("num_employees <= $" +:+ show (length (values st) + 1)) in
    push_value st (get_property queries "maxEmployees")
  else st.

(** The three tests of [findAll], in the order the method makes them. *)
Definition build (queries : object) : filters :=
  maxEmployees_filter queries
    (minEmployees_filter queries
      (name_filter queries no_filters)).

Definition statement (whereClause : string) : string :=
  "
      SELECT handle,
             name,
             description,
             num_employees AS " +:+
  dq +:+ "numEmployees" +:+ dq +:+
  ",
             logo_url      AS " +:+
  dq +:+ "logoUrl" +:+ dq +:+
  "
      FROM companies
      " +:+
  whereClause +:+
  "
      ORDER BY name
    ".

Definition select (queries : object) : query :=
  let st := build queries in
  {| text := statement (whereClause st); params := values st |}.

Definition findAll `{Engine} (queries : object) : completion query :=
  if gt (Number (get_property queries "minEmployees"))
        (Number (get_property queries "maxEmployees"))
  then Throw (BadRequestError NoMessage)
  else Return (select queries).

End Company.

(** ** routes/companies.js, [GET /]

    The schema [getCompanies.json] is not part of the models: the
    validation is a parameter, which gives the error stacks of the
    criteria it refuses. *)

Module CompanyRoutes.

(** [if (key in queries) queries.key = Number(queries.key)] *)
Definition to_number `{Engine} (key : string) (queries : object) : object :=
  if has_key key queries
  then set_property queries key (VNum (Number (get_property queries key)))
  else queries.

Definition get `{Engine} (validate : object -> option (list string))
    (req_query : object) : completion query :=
  let queries := to_number "minEmployees" req_query in
  let queries := to_number "maxEmployees" queries in
  match validate queries with
  | Some errs => Throw (BadRequestError (Stacks errs))
  | None => Company.findAll queries
  end.

End CompanyRoutes.

(** ** models/job.js *)

Module Job.

Definition title_filter (queries : object) (st : filters) : filters :=
  if has_key "title" queries then
    let st := push_condition st
      ("title ILIKE '%' || $" +:+ show (length (values st) + 1) +:+ " || '%'") in
    push_value st (get_property queries "title")
  else st.

Definition minSalary_filter (queries : object) (st : filters) : filters :=
  if has_key "minSalary" queries then
    let st := push_condition st
      ("salary >= $" +:+ show (length (values st) + 1)) in
    push_value st (get_property queries "minSalary")
  else st.

Definition hasEquity_filter (queries : object) (st : filters) : filters :=
  if has_key "hasEquity" queries && is_true (get_property queries "hasEquity") then
    let st := push_condition st
      ("equity > $" +:+ show (length (values st) + 1)) in
    push_value st (VInt 0)
  else st.

Definition build (queries : object) : filters :=
  hasEquity_filter queries
    (minSalary_filter queries
      (title_filter queries no_filters)).

Definition statement (whereClause : string) : string :=
  "
      SELECT id,
            title,
            salary,
            equity,
            company_handle AS " +:+
  dq +:+ "companyHandle" +:+ dq +:+
  "
        FROM jobs
        " +:+
  whereClause +:+
  "
        ORDER BY id
    ".

Definition select (queries : object) : query :=
  let st := build queries in
  {| text := statement (whereClause st); params := values st |}.

Definition findAll (queries : object) : completion query :=
  Return (select queries).

End Job.

(** ** The rule sets of the two listings

    The tests of each [findAll] read as a list of rules in a fixed order:
    the key tested, the predicate pushed for it at a position, and the
    value bound.  [Company.build] and [Job.build] above are the code;
    the theorems compare them with these. *)

Module CompanyRules.

Definition rules : list string := ["name"; "minEmployees"; "maxEmployees"].

Definition predicate (key : string) (position : nat) : string :=
  if String.eqb key "name" then
    "name ILIKE '%' || $" +:+ show position +:+ " || '%'"
  else if String.eqb key "minEmployees" then
    "num_employees >= $" +:+ show position
  else
    "num_employees <= $" +:+ show position.

Definition matched (criteria : object) (key : string) : bool :=
  has_key key criteria.

Definition bound (criteria : object) (key : string) : value :=
  get_property criteria key.

End CompanyRules.

Module JobRules.

Definition rules : list string := ["title"; "minSalary"; "hasEquity"].

Definition predicate (key : string) (position : nat) : string :=
  if String.eqb key "title" then
    "title ILIKE '%' || $" +:+ show position +:+ " || '%'"
  else if String.eqb key "minSalary" then
    "salary >= $" +:+ show position
  else
    "equity > $" +:+ show position.

Definition matched (criteria : object) (key : string) : bool :=
  has_key key criteria &&
  (if String.eqb key "hasEquity" then is_true (get_property criteria key) else true).

Definition bound (criteria : object) (key : string) : value :=
  if String.eqb key "hasEquity" then VInt 0 else get_property criteria key.

End JobRules.

(** The clause and the parameters a rule set gives for the matched keys,
    numbered from 1 in the order of the rules. *)
Definition by_rules (rules : list string) (predicate : string -> nat -> string)
    (matched : string -> bool) (bound : string -> value) : filters :=
  let keys := List.filter matched rules in
  {| conditions := imap (fun i key => predicate key (i + 1)) keys;
     values := bound <$> keys |}.

(** An engine for the examples: [StringToNumber] on a string of decimal
    digits, and NaN on a string with another character in it such as
    [abc].  (It is not the engine's function on signs, blanks, fractions
    or exponents, which no example uses.) *)
Definition digits_engine : Engine :=
  fun s =>
    match NilEmpty.uint_of_string s with
    | Some d => Fin (inject_Z (Z.of_nat (Nat.of_uint d)))
    | None => NaN
    end.

(** ** Values in conditions and in texts *)

(** [if (v)]: what is not falsy. *)
Definition truthy (v : value) : bool :=
  match v with
  | VUndefined | VNull => false
  | VBool b => b
  | VNum NaN => false
  | VNum (Infinity _) => true
  | VNum (Fin q) => negb (Qeq_bool q 0)
  | VStr s => negb (String.eqb s "")
  end.

Definition number_equal (a b : number) : bool :=
  match a, b with
  | Infinity x, Infinity y => Bool.eqb x y
  | Fin x, Fin y => Qeq_bool x y
  | _, _ => false
  end.

(** [a === b] *)
Definition strict_equal (a b : value) : bool :=
  match a, b with
  | VUndefined, VUndefined => true
  | VNull, VNull => true
  | VBool x, VBool y => Bool.eqb x y
  | VNum x, VNum y => number_equal x y
  | VStr x, VStr y => String.eqb x y
  | _, _ => false
  end.

(** The text of a number is the engine's [Number::toString]. *)
Class Printer := NumberToString : number -> string.

(** [`${v}`] *)
Definition ToString `{Printer} (v : value) : string :=
  match v with
  | VUndefined => "undefined"
  | VNull => "null"
  | VBool true => "true"
  | VBool false => "false"
  | VNum n => NumberToString n
  | VStr s => s
  end.

(** ** The database

    A method of a model is a program that sends statements to
    [db.query] and goes on with the rows that come back.  (A statement
    the database refuses is outside this model: the driver then throws
    an error of its own.) *)

Abbreviation row := (list (string * value)).

Inductive failure :=
  | Raised (e : exn)
  | NotFoundError (m : message)
  | UnauthorizedError
  | TypeError.

Inductive db (A : Type) :=
  | Done (a : A)
  | Fail (e : failure)
  | Query (q : query) (k : list row -> db A).
Arguments Done {A} a.
Arguments Fail {A} e.
Arguments Query {A} q k.

(** [await] the first program, then go on with its result. *)
Fixpoint and_then {A B : Type} (p : db A) (f : A -> db B) : db B :=
  match p with
  | Done a => f a
  | Fail e => Fail e
  | Query q k => Query q (fun rows => and_then (k rows) f)
  end.

Inductive outcome (A : Type) :=
  | Returned (a : A)
  | Threw (e : failure).
Arguments Returned {A} a.
Arguments Threw {A} e.

(** A program against a database in state [s], [exec] being the driver:
    how the program ends, and the statements sent, first to last. *)
Fixpoint run {A S : Type} (exec : S -> query -> list row * S)
    (p : db A) (s : S) : outcome A * list query :=
  match p with
  | Done a => (Returned a, [])
  | Fail e => (Threw e, [])
  | Query q k =>
      let '(rows, s') := exec s q in
      let '(r, sent) := run exec (k rows) s' in
      (r, q :: sent)
  end.

(** ** models/company.js, the other methods *)

Module CompanyModel.

Definition duplicateCheck_text : string :=
  "
        SELECT handle
        FROM companies
        WHERE handle = $1".

Definition insert_text : string :=
  "
      INSERT INTO companies (handle,
                              name,
                              description,
                              num_employees,
                              logo_url)
      VALUES ($1, $2, $3, $4, $5)
      RETURNING
          handle,
          name,
          description,
          num_employees AS " +:+
  dq +:+ "numEmployees" +:+ dq +:+
  ",
          logo_url AS " +:+
  dq +:+ "logoUrl" +:+ dq.

Definition create `{Printer} (data : object) : db (option row) :=
  let handle := get_property data "handle" in
  let name := get_property data "name" in
  let description := get_property data "description" in
  let numEmployees := get_property data "numEmployees" in
  let logoUrl := get_property data "logoUrl" in
  Query {| text := duplicateCheck_text; params := [handle] |}
    (fun duplicateCheck =>
       match head duplicateCheck with
       | Some _ =>
           Fail (Raised (BadRequestError
                   (Message ("Duplicate company: " +:+ ToString handle))))
       | None =>
           Query {| text := insert_text;
                    params := [handle; name; description; numEmployees; logoUrl] |}
             (fun result => Done (head result))
       end).

Definition findAll `{Engine} (queries : object) : db (list row) :=
  match Company.findAll queries with
  | Throw e => Fail (Raised e)
  | Return q => Query q (fun companiesRes => Done companiesRes)
  end.

Definition jobs_text : string :=
  "
      SELECT id,
             title,
             salary,
             equity
      FROM jobs
      WHERE company_handle = $1
      ORDER BY salary
    ".

Definition company_text : string :=
  "
      SELECT handle,
              name,
              description,
              num_employees AS " +:+
  dq +:+ "numEmployees" +:+ dq +:+
  ",
              logo_url      AS " +:+
  dq +:+ "logoUrl" +:+ dq +:+
  "
      FROM companies
      WHERE handle = $1".

(** The company of [get]: its row, with the property [jobs] set. *)
Record company := { company_row : row; jobs : list row }.

(** [company.jobs = jobs] comes before the test of [company]: on no row
    the assignment is to [undefined]. *)
Definition get `{Printer} (handle : value) : db company :=
  Query {| text := jobs_text; params := [handle] |}
    (fun jobsRes =>
       Query {| text := company_text; params := [handle] |}
         (fun companyRes =>
            match head companyRes with
            | None => Fail TypeError
            | Some company => Done {| company_row := company; jobs := jobsRes |}
            end)).

Definition jsToSql : gmap string string :=
  <["numEmployees" := "num_employees"]> (<["logoUrl" := "logo_url"]> ∅).

Definition update_text (setCols handleVarIdx : string) : string :=
  "
        UPDATE companies
        SET " +:+
  setCols +:+
  "
        WHERE handle = " +:+
  handleVarIdx +:+
  "
        RETURNING
            handle,
            name,
            description,
            num_employees AS " +:+
  dq +:+ "numEmployees" +:+ dq +:+
  ",
            logo_url AS " +:+
  dq +:+ "logoUrl" +:+ dq.

Definition update `{Printer} (handle : value) (data : object) : db row :=
  match Sql.sqlForPartialUpdate data jsToSql with
  | Throw e => Fail (Raised e)
  | Return r =>
      let handleVarIdx := "$" +:+ show (length (Sql.values r) + 1) in
      let querySql := update_text (Sql.setCols r) handleVarIdx in
      Query {| text := querySql; params := Sql.values r ++ [handle] |}
        (fun result =>
           match head result with
           | None =>
               Fail (NotFoundError (Message ("No company: " +:+ ToString handle)))
           | Some company => Done company
           end)
  end.

Definition remove_text : string :=
  "
        DELETE
        FROM companies
        WHERE handle = $1
        RETURNING handle".

Definition remove `{Printer} (handle : value) : db unit :=
  Query {| text := remove_text; params := [handle] |}
    (fun result =>
       match head result with
       | None => Fail (NotFoundError (Message ("No company: " +:+ ToString handle)))
       | Some _ => Done tt
       end).

End CompanyModel.

(** ** models/job.js, the other methods *)

Module JobModel.

Definition company_text : string :=
  "
      SELECT handle
        FROM companies
        WHERE handle = $1
    ".

Definition insert_text : string :=
  "
      INSERT INTO jobs (title,
                        salary,
                        equity,
                        company_handle)
      VALUES ($1, $2, $3, $4)
      RETURNING
          id,
          title,
          salary,
          equity,
          company_handle AS " +:+
  dq +:+ "companyHandle" +:+ dq.

Definition create (data : object) : db (option row) :=
  let title := get_property data "title" in
  let salary := get_property data "salary" in
  let equity := get_property data "equity" in
  let companyHandle := get_property data "companyHandle" in
  Query {| text := company_text; params := [companyHandle] |}
    (fun companyRes =>
       match head companyRes with
       | None => Fail (NotFoundError NoMessage)
       | Some _ =>
           Query {| text := insert_text;
                    params := [title; salary; equity; companyHandle] |}
             (fun result => Done (head result))
       end).

Definition findAll (queries : object) : db (list row) :=
  match Job.findAll queries with
  | Throw e => Fail (Raised e)
  | Return q => Query q (fun jobsRes => Done jobsRes)
  end.

Definition get_text : string :=
  "
        SELECT id,
               title,
               salary,
               equity,
               company_handle AS " +:+
  dq +:+ "companyHandle" +:+ dq +:+
  "
        FROM jobs
        WHERE id = $1".

Definition get `{Printer} (id : value) : db row :=
  Query {| text := get_text; params := [id] |}
    (fun jobRes =>
       match head jobRes with
       | None => Fail (NotFoundError (Message ("No job: " +:+ ToString id)))
       | Some job => Done job
       end).

Definition jsToSql : gmap string string :=
  <["companyHandle" := "company_handle"]> ∅.

Definition update_text (setCols handleVarIdx : string) : string :=
  "
        UPDATE jobs
        SET " +:+
  setCols +:+
  "
        WHERE id = " +:+
  handleVarIdx +:+
  "
        RETURNING
            id,
            title,
            salary,
            equity,
            company_handle AS " +:+
  dq +:+ "companyHandle" +:+ dq.

Definition update `{Printer} (id : value) (data : object) : db row :=
  match Sql.sqlForPartialUpdate data jsToSql with
  | Throw e => Fail (Raised e)
  | Return r =>
      let handleVarIdx := "$" +:+ show (length (Sql.values r) + 1) in
      let querySql := update_text (Sql.setCols r) handleVarIdx in
      Query {| text := querySql; params := Sql.values r ++ [id] |}
        (fun result =>
           match head result with
           | None => Fail (NotFoundError (Message ("No job: " +:+ ToString id)))
           | Some job => Done job
           end)
  end.

Definition remove_text : string :=
  "
        DELETE
        FROM jobs
        WHERE id = $1
        RETURNING id".

Definition remove `{Printer} (id : value) : db unit :=
  Query {| text := remove_text; params := [id] |}
    (fun result =>
       match head result with
       | None => Fail (NotFoundError (Message ("No job: " +:+ ToString id)))
       | Some _ => Done tt
       end).

End JobModel.

(** ** middleware/auth.js

    [res.locals.user] is [None] when no user was stored, and else the
    payload of the token, an object with scalar properties. *)

(** Header values are read as code units below 256; the blanks of
    [String.prototype.trim] among these are the tab, the line feed, the
    vertical tab, the form feed, the carriage return, the space and the
    no-break space. *)
Definition is_space (c : ascii) : bool :=
  let n := nat_of_ascii c in
  ((9 <=? n) && (n <=? 13) || (n =? 32) || (n =? 160))%nat.

Fixpoint trimStart (s : string) : string :=
  match s with
  | EmptyString => EmptyString
  | String c s' => if is_space c then trimStart s' else s
  end.

Fixpoint trimEnd (s : string) : string :=
  match s with
  | EmptyString => EmptyString
  | String c s' =>
      match trimEnd s' with
      | EmptyString => if is_space c then EmptyString else String c EmptyString
      | t => String c t
      end
  end.

Definition trim (s : string) : string := trimEnd (trimStart s).

(** [authHeader.replace(/^[Bb]earer /, "")] *)
Definition strip_bearer (authHeader : string) : string :=
  if String.prefix "Bearer " authHeader || String.prefix "bearer " authHeader
  then String.substring 7 (String.length authHeader - 7) authHeader
  else authHeader.

Module Auth.

(** [res.locals.user?.key] *)
Definition user_property (user : option object) (key : string) : value :=
  match user with
  | Some localUser => get_property localUser key
  | None => VUndefined
  end.

(** [jwt.verify(token, SECRET_KEY)] is the parameter [verify], [None]
    when it throws.  The result is the new [res.locals.user]; [next()]
    is called in every case. *)
Definition authenticateJWT (verify : string -> option object)
    (authorization : option string) (user : option object) : option object :=
  match authorization with
  | Some authHeader =>
      if negb (String.eqb authHeader "") then
        let token := trim (strip_bearer authHeader) in
        match verify token with
        | Some payload => Some payload
        | None => user
        end
      else user
  | None => user
  end.

Definition ensureLoggedIn (user : option object) : outcome unit :=
  if truthy (user_property user "username") then Returned tt
  else Threw UnauthorizedError.

Definition isAdmin (user : option object) : outcome unit :=
  if negb (is_true (user_property user "isAdmin")) then Threw UnauthorizedError
  else Returned tt.

Definition isAdminOrCurrentUser (localUser : option object)
    (req_params : object) : outcome unit :=
  match localUser with
  | None => Threw UnauthorizedError
  | Some localUser =>
      if negb (strict_equal (get_property localUser "username")
                            (get_property req_params "username"))
         && negb (is_true (get_property localUser "isAdmin"))
      then Threw UnauthorizedError
      else Returned tt
  end.

End Auth.

(** ** The routes

    The schemas are not part of the models: each validation is a
    parameter, which gives the error stacks of the body it refuses. *)

Record response (A : Type) := { status : nat; body : A }.
Arguments status {A} r.
Arguments body {A} r.

(** A middleware in front of the rest of a route. *)
Definition guarded {A : Type} (m : outcome unit) (rest : db A) : db A :=
  match m with
  | Returned _ => rest
  | Threw e => Fail e
  end.

(** [if (!validator.valid) throw new BadRequestError(errs)] *)
Definition validated {A : Type} (errs : option (list string)) (rest : db A) : db A :=
  match errs with
  | Some errs => Fail (Raised (BadRequestError (Stacks errs)))
  | None => rest
  end.

(** [res.status(n).json(...)] *)
Definition json {A : Type} (n : nat) (a : A) : db (response A) :=
  Done {| status := n; body := a |}.

(** routes/companies.js *)
Module CompanyRouter.

Definition post `{Printer} (validate : object -> option (list string))
    (user : option object) (req_body : object) : db (response (option row)) :=
  guarded (Auth.ensureLoggedIn user)
    (guarded (Auth.isAdmin user)
      (validated (validate req_body)
        (and_then (CompanyModel.create req_body) (json 201)))).

Definition list_all `{Engine} (validate : object -> option (list string))
    (req_query : object) : db (response (list row)) :=
  let queries := CompanyRoutes.to_number "minEmployees" req_query in
  let queries := CompanyRoutes.to_number "maxEmployees" queries in
  validated (validate queries)
    (and_then (CompanyModel.findAll queries) (json 200)).

Definition get `{Printer} (handle : string) : db (response CompanyModel.company) :=
  and_then (CompanyModel.get (VStr handle)) (json 200).

Definition patch `{Printer} (validate : object -> option (list string))
    (user : option object) (handle : string) (req_body : object)
    : db (response row) :=
  guarded (Auth.ensureLoggedIn user)
    (guarded (Auth.isAdmin user)
      (validated (validate req_body)
        (and_then (CompanyModel.update (VStr handle) req_body) (json 200)))).

Definition delete `{Printer} (user : option object) (handle : string)
    : db (response string) :=
  guarded (Auth.ensureLoggedIn user)
    (guarded (Auth.isAdmin user)
      (and_then (CompanyModel.remove (VStr handle)) (fun _ => json 200 handle))).

End CompanyRouter.

(** routes/jobs.js *)
Module JobRouter.

Definition post (validate : object -> option (list string))
    (user : option object) (req_body : object) : db (response (option row)) :=
  guarded (Auth.ensureLoggedIn user)
    (guarded (Auth.isAdmin user)
      (validated (validate req_body)
        (and_then (JobModel.create req_body) (json 201)))).

(** [if ("hasEquity" in queries)
      queries.hasEquity = queries.hasEquity === "true" ? true : false] *)
Definition to_boolean (queries : object) : object :=
  if has_key "hasEquity" queries
  then set_property queries "hasEquity"
         (VBool (strict_equal (get_property queries "hasEquity") (VStr "true")))
  else queries.

Definition list_all `{Engine} (validate : object -> option (list string))
    (req_query : object) : db (response (list row)) :=
  let queries := CompanyRoutes.to_number "minSalary" req_query in
  let queries := to_boolean queries in
  validated (validate queries)
    (and_then (JobModel.findAll queries) (json 200)).

Definition get `{Printer} (id : string) : db (response row) :=
  and_then (JobModel.get (VStr id)) (json 200).

Definition patch `{Printer} (validate : object -> option (list string))
    (user : option object) (id : string) (req_body : object)
    : db (response row) :=
  guarded (Auth.ensureLoggedIn user)
    (guarded (Auth.isAdmin user)
      (validated (validate req_body)
        (and_then (JobModel.update (VStr id) req_body) (json 200)))).

Definition delete `{Printer} (user : option object) (id : string)
    : db (response string) :=
  guarded (Auth.ensureLoggedIn user)
    (guarded (Auth.isAdmin user)
      (and_then (JobModel.remove (VStr id)) (fun _ => json 200 id))).

End JobRouter.

(** The other copy of routes/jobs.js, whose listing coerces with
    [queries.hasEquity = Boolean(queries.hasEquity)]. *)
Module JobRouterBoolean.

Definition to_boolean (queries : object) : object :=
  if has_key "hasEquity" queries
  then set_property queries "hasEquity"
         (VBool (truthy (get_property queries "hasEquity")))
  else queries.

Definition list_all `{Engine} (validate : object -> option (list string))
    (req_query : object) : db (response (list row)) :=
  let queries := CompanyRoutes.to_number "minSalary" req_query in
  let queries := to_boolean queries in
  validated (validate queries)
    (and_then (JobModel.findAll queries) (json 200)).

End JobRouterBoolean.

(** A schema for the examples, which accepts every criteria. *)
Definition validate_all (_ : object) : option (list string) := None.

(** A schema for the examples, which refuses every criteria. *)
Definition refusing_schema (_ : object) : option (list string) :=
  Some ["instance does not match the schema"].

(** A printer for the examples, which print no number. *)
Definition no_number_printer : Printer := fun _ => "NaN".

(** ** What the theorems speak of *)

(** Every statement a program may send, whatever comes back. *)
Fixpoint always_sends {A : Type} (P : query -> Prop) (p : db A) : Prop :=
  match p with
  | Done _ | Fail _ => True
  | Query q k => P q /\ forall rows, always_sends P (k rows)
  end.

(** The placeholders of a statement are those of its parameters. *)
Definition well_numbered (q : query) : Prop := numbered (text q) (params q).

(** Text with nothing the reading of placeholders stops at. *)
Fixpoint plain (s : string) : bool :=
  match s with
  | EmptyString => true
  | String c s' =>
      match code_char c with Code => plain s' | _ => false end
  end.

(** A database that holds nothing, for the examples. *)
Definition empty_database (_ : unit) (_ : query) : list row * unit := ([], tt).

(** A database that answers every statement with the row given. *)
Definition one_row_database (r : row) (_ : unit) (_ : query) : list row * unit :=
  ([r], tt).

(** A verifier for the examples: it knows one token. *)
Definition verify_good (token : string) : option object :=
  if String.eqb token "good"
  then Some [("username", VStr "test"); ("isAdmin", VBool false)]
  else None.

(** * Properties *)

(** ** Reading a placeholder back *)

Lemma scan_param_digits (d : uint) (acc : nat) (rest : string) :
  scan (Param acc) (NilEmpty.string_of_uint d +:+ rest)
  = scan (Param (Nat.of_uint_acc d acc)) rest.
Proof.
  revert acc.
  induction d; intros acc; simpl; [reflexivity | ..];
    rewrite IHd, Nat.tail_mul_spec; do 3 f_equal; lia.
Qed.

Lemma scan_dollar_show (n : nat) (rest : string) :
  scan Dollar (show n +:+ rest) = scan (Param n) rest.
Proof.
  rewrite <- (Unsigned.of_to n) at 2.
  unfold show, Nat.of_uint.
  destruct (Nat.to_uint n) as [|d|d|d|d|d|d|d|d|d|d]; simpl; [reflexivity | ..];
    rewrite scan_param_digits; reflexivity.
Qed.

(** ** Strings *)

Lemma append_nil_r (s : string) : s +:+ "" = s.
Proof. induction s as [|c s IH]; cbn; [reflexivity | rewrite IH; reflexivity]. Qed.

Lemma append_assoc (s1 s2 s3 : string) : (s1 +:+ s2) +:+ s3 = s1 +:+ (s2 +:+ s3).
Proof. induction s1 as [|c s1 IH]; cbn; [reflexivity | rewrite IH; reflexivity]. Qed.

Lemma join_cons_cons (sep x y : string) (l : list string) :
  join sep (x :: y :: l) = x +:+ sep +:+ join sep (y :: l).
Proof. reflexivity. Qed.

(** ** The update clause *)

(** Inside a quoted identifier nothing is read until the closing quote. *)
Lemma scan_ident (name rest : string) :
  has_char dquote name = false ->
  scan Ident (name +:+ String dquote rest) = scan Code rest.
Proof.
  induction name as [|c name IH]; cbn; [reflexivity |].
  intros [Hc Hname]%orb_false_iff.
  rewrite Hc. apply IH, Hname.
Qed.

Lemma scan_assignment (name : string) (position : nat) (rest : string) :
  has_char dquote name = false ->
  scan Code (assignment name position +:+ rest) = scan (Param position) rest.
Proof.
  intros Hname. unfold assignment, dq.
  rewrite !append_assoc. cbn.
  rewrite scan_ident by exact Hname. cbn.
  apply scan_dollar_show.
Qed.

Lemma scan_param_comma (n : nat) (s : string) :
  scan (Param n) (", " +:+ s) = n :: scan Code s.
Proof. reflexivity. Qed.

Lemma placeholders_assignments (column : string -> string)
    (keys : list string) (off : nat) :
  Forall (fun k => has_char dquote (column k) = false) keys ->
  scan Code (join ", "
    (imap (fun idx k => assignment (column k) (off + idx + 1)) keys))
  = seq (off + 1) (length keys).
Proof.
  revert off. induction keys as [|k keys IH]; intros off Hkeys; [reflexivity |].
  apply Forall_cons in Hkeys as [Hk Hkeys].
  rewrite imap_cons.
  rewrite (imap_ext _ (fun idx k => assignment (column k) (S off + idx + 1)))
    by (intros; unfold compose; cbv beta; f_equal; lia).
  specialize (IH (S off) Hkeys).
  destruct keys as [|k' keys].
  - rewrite imap_nil. unfold join. cbn [String.concat].
    rewrite <- (append_nil_r (assignment _ _)).
    rewrite scan_assignment by exact Hk. cbn. do 2 f_equal; lia.
  - rewrite imap_cons in *. rewrite join_cons_cons.
    rewrite scan_assignment by exact Hk.
    rewrite scan_param_comma, IH. cbn [length seq].
    do 2 f_equal; lia.
Qed.

Lemma sqlForPartialUpdate_nonempty (d : object) (m : gmap string string) :
  d <> [] ->
  Sql.sqlForPartialUpdate d m
  = Return {| Sql.setCols :=
                join ", " (imap (fun idx k => assignment (Sql.column m k) (idx + 1))
                                (Object_keys d));
              Sql.values := Object_values d |}.
Proof.
  intros Hd. unfold Sql.sqlForPartialUpdate.
  destruct d as [|kv d]; [contradiction | reflexivity].
Qed.

(** C2: a non-empty update of [n] fields gives [n] assignments joined with
    [", "], the one at index [i] ending in the placeholder [$(i+1)], and
    [n] values in the order of the keys, the value at index [i] being the
    one of the [i]-th key. *)
Theorem sqlForPartialUpdate_assignments (d : object) (m : gmap string string) :
  d <> [] ->
  exists r cols,
    Sql.sqlForPartialUpdate d m = Return r /\
    Sql.setCols r = join ", " cols /\
    length cols = length d /\
    length (Sql.values r) = length d /\
    Sql.values r = d.*2 /\
    forall i k v, d !! i = Some (k, v) ->
      cols !! i = Some (dq +:+ Sql.column m k +:+ dq +:+ "=$" +:+ show (i + 1)) /\
      Sql.values r !! i = Some v.
Proof.
  intros Hd. eexists _, _.
  split; [apply sqlForPartialUpdate_nonempty, Hd |]. cbn.
  split; [reflexivity |].
  unfold Object_keys, Object_values.
  rewrite length_imap, !length_fmap.
  do 3 (split; [reflexivity |]).
  intros i k v Hi. rewrite list_lookup_imap, !list_lookup_fmap, Hi.
  split; reflexivity.
Qed.

Lemma sqlForPartialUpdate_assignments_witness :
  let d := [("firstName", VStr "Aliya"); ("age", VInt 32)] in
  d <> [] /\
  exists r cols,
    Sql.sqlForPartialUpdate d {["firstName" := "first_name"]} = Return r /\
    Sql.setCols r = join ", " cols /\
    length cols = length d /\
    length (Sql.values r) = length d /\
    Sql.values r = d.*2 /\
    forall i k v, d !! i = Some (k, v) ->
      cols !! i = Some (dq +:+ Sql.column {["firstName" := "first_name"]} k
                        +:+ dq +:+ "=$" +:+ show (i + 1)) /\
      Sql.values r !! i = Some v.
Proof.
  split; [discriminate |].
  apply (sqlForPartialUpdate_assignments
           [("firstName", VStr "Aliya"); ("age", VInt 32)]).
  discriminate.
Defined.

(** C3: an empty update throws [BadRequestError("No data")] whatever the
    name map, and gives no clause; a non-empty one returns. *)
Theorem sqlForPartialUpdate_no_data :
  (forall m, Sql.sqlForPartialUpdate [] m = Throw (BadRequestError (Message "No data"))) /\
  (forall kv d m, exists r, Sql.sqlForPartialUpdate (kv :: d) m = Return r).
Proof.
  split; [reflexivity |].
  intros kv d m. eexists. apply sqlForPartialUpdate_nonempty. discriminate.
Qed.

(** The test of [sql.test.js]: three fields, one of them renamed. *)
Example sqlForPartialUpdate_test :
  Sql.sqlForPartialUpdate
    [("firstName", VStr "newFirstName"); ("age", VStr "newAge");
     ("description", VStr "newDescription")]
    {["firstName" := "first_name"]}
  = Return {| Sql.setCols :=
                dq +:+ "first_name" +:+ dq +:+ "=$1, " +:+
                dq +:+ "age" +:+ dq +:+ "=$2, " +:+
                dq +:+ "description" +:+ dq +:+ "=$3";
              Sql.values :=
                [VStr "newFirstName"; VStr "newAge"; VStr "newDescription"] |}
  /\ Sql.sqlForPartialUpdate [] ∅ = Throw (BadRequestError (Message "No data")).
Proof. split; reflexivity. Qed.

(** C5: the scenario of the comment in [sql.js]: firstName is renamed to
    first_name, age keeps its name, each name is wrapped in double quotes,
    and the values are Aliya and 32. *)
Theorem sqlForPartialUpdate_scenario :
  Sql.sqlForPartialUpdate
    [("firstName", VStr "Aliya"); ("age", VInt 32)]
    {["firstName" := "first_name"]}
  = Return {| Sql.setCols :=
                dq +:+ "first_name" +:+ dq +:+ "=$1, " +:+
                dq +:+ "age" +:+ dq +:+ "=$2";
              Sql.values := [VStr "Aliya"; VInt 32] |}.
Proof. reflexivity. Qed.

Lemma column_mapped (m : gmap string string) (k physical : string) :
  m !! k = Some physical -> physical <> "" -> Sql.column m k = physical.
Proof.
  intros Hk Hne. unfold Sql.column. rewrite Hk.
  destruct (String.eqb_spec physical ""); [contradiction | reflexivity].
Qed.

Lemma column_fallback (m : gmap string string) (k : string) :
  (m !! k = None /\ Object_prototype k = None) \/ m !! k = Some "" ->
  Sql.column m k = k.
Proof. unfold Sql.column. intros [[-> ->] | ->]; reflexivity. Qed.

Lemma column_inherited (m : gmap string string) (k member : string) :
  m !! k = None -> Object_prototype k = Some member -> Sql.column m k = member.
Proof. unfold Sql.column. intros -> ->. reflexivity. Qed.

(** C4, as the code has it: the assignment of a key names the mapped
    column when the name map has a non-empty name for the key; the key
    itself when the name map has an empty name for it, or has no entry
    for it and the key names no member of [Object.prototype]; and the
    text of the inherited member when the name map has no entry for the
    key and the key names one ([toString], [constructor], ...). *)
Theorem sqlForPartialUpdate_column (d : object) (m : gmap string string)
    (i : nat) (k : string) (v : value) :
  d !! i = Some (k, v) ->
  exists r cols name,
    Sql.sqlForPartialUpdate d m = Return r /\
    Sql.setCols r = join ", " cols /\
    cols !! i = Some (dq +:+ name +:+ dq +:+ "=$" +:+ show (i + 1)) /\
    (forall physical, m !! k = Some physical -> physical <> "" -> name = physical) /\
    (m !! k = Some "" -> name = k) /\
    (m !! k = None -> Object_prototype k = None -> name = k) /\
    (forall member,
        m !! k = None -> Object_prototype k = Some member -> name = member).
Proof.
  intros Hi.
  assert (d <> []) as Hd by (intros ->; discriminate).
  exists {| Sql.setCols :=
              join ", " (imap (fun idx k => assignment (Sql.column m k) (idx + 1))
                              (Object_keys d));
            Sql.values := Object_values d |}.
  eexists _, (Sql.column m k).
  split; [apply sqlForPartialUpdate_nonempty, Hd |].
  split; [reflexivity |].
  split.
  - unfold Object_keys. rewrite list_lookup_imap, list_lookup_fmap, Hi. reflexivity.
  - split; [apply column_mapped |].
    split; [intros Hk; apply column_fallback; right; exact Hk |].
    split; [intros Hk Hp; apply column_fallback; left; split; assumption |].
    intros member. apply column_inherited.
Qed.

Lemma sqlForPartialUpdate_column_witness :
  let d := [("firstName", VStr "Aliya"); ("age", VInt 32)] in
  let m : gmap string string := {["firstName" := "first_name"]} in
  (d !! 0 = Some ("firstName", VStr "Aliya") /\
   m !! "firstName" = Some "first_name" /\
   d !! 1 = Some ("age", VInt 32) /\
   m !! "age" = None /\ Object_prototype "age" = None) /\
  (exists r cols name,
    Sql.sqlForPartialUpdate d m = Return r /\
    Sql.setCols r = join ", " cols /\
    cols !! 0 = Some (dq +:+ name +:+ dq +:+ "=$" +:+ show (0 + 1)) /\
    (forall physical, m !! "firstName" = Some physical -> physical <> "" ->
       name = physical) /\
    (m !! "firstName" = Some "" -> name = "firstName") /\
    (m !! "firstName" = None -> Object_prototype "firstName" = None ->
       name = "firstName") /\
    (forall member,
        m !! "firstName" = None -> Object_prototype "firstName" = Some member ->
        name = member)) /\
  (exists r cols name,
    Sql.sqlForPartialUpdate d m = Return r /\
    Sql.setCols r = join ", " cols /\
    cols !! 1 = Some (dq +:+ name +:+ dq +:+ "=$" +:+ show (1 + 1)) /\
    name = "age").
Proof.
  split; [repeat split |]. split.
  - apply (sqlForPartialUpdate_column
             [("firstName", VStr "Aliya"); ("age", VInt 32)]
             {["firstName" := "first_name"]} 0 "firstName" (VStr "Aliya")).
    reflexivity.
  - destruct (sqlForPartialUpdate_column
                [("firstName", VStr "Aliya"); ("age", VInt 32)]
                {["firstName" := "first_name"]} 1 "age" (VInt 32) eq_refl)
      as (r & cols & name & Hr & Hcols & Hi & _ & _ & Hown & _).
    exists r, cols, name. repeat split; try assumption.
    apply Hown; reflexivity.
Defined.

(** C4 as stated fails twice.  On a name map that holds the empty string
    for a key, the key is present in the map and the assignment names
    the key, not the mapped (empty) name.  On a key that the name map
    does not hold and that names a member of [Object.prototype], the
    assignment names the text of this member, not the key. *)
Lemma sqlForPartialUpdate_empty_column_name :
  (let m : gmap string string := {["firstName" := ""]} in
   m !! "firstName" = Some "" /\
   Sql.sqlForPartialUpdate [("firstName", VStr "Aliya")] m
   = Return {| Sql.setCols := dq +:+ "firstName" +:+ dq +:+ "=$1";
               Sql.values := [VStr "Aliya"] |} /\
   dq +:+ "firstName" +:+ dq +:+ "=$1" <> dq +:+ "" +:+ dq +:+ "=$1") /\
  (let m : gmap string string := ∅ in
   m !! "toString" = None /\
   Sql.sqlForPartialUpdate [("toString", VInt 1)] m
   = Return {| Sql.setCols :=
                 dq +:+ "function toString() { [native code] }" +:+ dq +:+ "=$1";
               Sql.values := [VInt 1] |} /\
   dq +:+ "function toString() { [native code] }" +:+ dq +:+ "=$1"
   <> dq +:+ "toString" +:+ dq +:+ "=$1").
Proof. repeat split; discriminate. Qed.

(** C1, as the code has it: when no column name of an update holds a
    double quote, the SET clause refers to [$1], ..., [$n] once each and
    in this order, [n] being the number of values; the WHERE clauses of
    both [findAll] do so for every criteria. *)
Theorem clause_placeholders_numbered :
  (forall d m r,
      Sql.sqlForPartialUpdate d m = Return r ->
      (forall k, k ∈ Object_keys d -> has_char dquote (Sql.column m k) = false) ->
      numbered (Sql.setCols r) (Sql.values r)) /\
  (forall q, numbered (whereClause (Company.build q)) (values (Company.build q))) /\
  (forall q, numbered (whereClause (Job.build q)) (values (Job.build q))).
Proof.
  split; [| split].
  - intros d m r Hr Hkeys.
    assert (d <> []) as Hd by (intros ->; discriminate).
    rewrite sqlForPartialUpdate_nonempty in Hr by exact Hd.
    injection Hr as <-. unfold numbered, placeholders, Sql.setCols, Sql.values.
    unfold Object_values. rewrite length_fmap, <- (length_fmap fst d).
    apply (placeholders_assignments (Sql.column m) _ 0).
    apply Forall_forall, Hkeys.
  - intros q. unfold numbered, Company.build, Company.maxEmployees_filter,
      Company.minEmployees_filter, Company.name_filter.
    destruct (has_key "name" q), (has_key "minEmployees" q),
      (has_key "maxEmployees" q); reflexivity.
  - intros q. unfold numbered, Job.build, Job.hasEquity_filter,
      Job.minSalary_filter, Job.title_filter.
    destruct (has_key "title" q), (has_key "minSalary" q),
      (has_key "hasEquity" q), (is_true (get_property q "hasEquity")); reflexivity.
Qed.

Lemma clause_placeholders_numbered_witness :
  let d := [("firstName", VStr "Aliya"); ("age", VInt 32)] in
  let m : gmap string string := {["firstName" := "first_name"]} in
  let r := {| Sql.setCols := dq +:+ "first_name" +:+ dq +:+ "=$1, " +:+
                             dq +:+ "age" +:+ dq +:+ "=$2";
              Sql.values := [VStr "Aliya"; VInt 32] |} in
  Sql.sqlForPartialUpdate d m = Return r /\
  placeholders (Sql.setCols r) = [1; 2] /\
  numbered (Sql.setCols r) (Sql.values r).
Proof.
  do 2 (split; [reflexivity |]).
  apply (proj1 clause_placeholders_numbered
           [("firstName", VStr "Aliya"); ("age", VInt 32)]
           {["firstName" := "first_name"]}
           {| Sql.setCols := dq +:+ "first_name" +:+ dq +:+ "=$1, " +:+
                             dq +:+ "age" +:+ dq +:+ "=$2";
              Sql.values := [VStr "Aliya"; VInt 32] |}).
  - reflexivity.
  - intros k Hk. unfold Object_keys in Hk. cbn in Hk.
    apply elem_of_cons in Hk as [-> | Hk]; [reflexivity |].
    apply elem_of_cons in Hk as [-> | Hk]; [reflexivity |].
    inversion Hk.
Defined.

(** C1 as stated fails on a key that holds double quotes: the key closes
    its identifier, and the clause refers to [$2] then [$1] for one
    value. *)
Lemma quoted_key_breaks_numbering :
  let key := "x" +:+ dq +:+ "=$2, " +:+ dq +:+ "y" in
  let clause := dq +:+ "x" +:+ dq +:+ "=$2, " +:+ dq +:+ "y" +:+ dq +:+ "=$1" in
  Sql.sqlForPartialUpdate [(key, VInt 1)] ∅
  = Return {| Sql.setCols := clause; Sql.values := [VInt 1] |} /\
  placeholders clause = [2; 1] /\
  ~ numbered clause [VInt 1].
Proof. repeat split. discriminate. Qed.

(** ** The filters of the listings *)

Lemma own_property_lookup (key : string) (o : object) :
  own_property key o = (list_to_map o : gmap string value) !! key.
Proof.
  induction o as [|[k v] o IH]; [reflexivity |].
  cbn [own_property]. rewrite list_to_map_cons.
  destruct (String.eqb_spec k key) as [-> | Hne].
  - rewrite lookup_insert_eq. reflexivity.
  - rewrite lookup_insert_ne by exact Hne. exact IH.
Qed.

(** The order of the properties of an object does not show in a lookup. *)
Lemma own_property_permutation (key : string) (o o' : object) :
  wf_object o -> o ≡ₚ o' -> own_property key o = own_property key o'.
Proof.
  intros Hwf Hperm. rewrite !own_property_lookup.
  rewrite (list_to_map_proper o o' Hwf Hperm). reflexivity.
Qed.

Lemma Company_build_ext (q q' : object) :
  (forall key, own_property key q = own_property key q') ->
  Company.build q = Company.build q'.
Proof.
  intros Hext.
  unfold Company.build, Company.maxEmployees_filter, Company.minEmployees_filter,
    Company.name_filter, has_key, get_property.
  rewrite !Hext. reflexivity.
Qed.

Lemma Job_build_ext (q q' : object) :
  (forall key, own_property key q = own_property key q') ->
  Job.build q = Job.build q'.
Proof.
  intros Hext.
  unfold Job.build, Job.hasEquity_filter, Job.minSalary_filter,
    Job.title_filter, has_key, get_property.
  rewrite !Hext. reflexivity.
Qed.

Lemma Company_build_by_rules (q : object) :
  Company.build q
  = by_rules CompanyRules.rules CompanyRules.predicate
             (CompanyRules.matched q) (CompanyRules.bound q).
Proof.
  unfold by_rules, CompanyRules.rules, CompanyRules.matched, CompanyRules.bound,
    Company.build, Company.maxEmployees_filter, Company.minEmployees_filter,
    Company.name_filter.
  cbn [List.filter].
  destruct (has_key "name" q), (has_key "minEmployees" q),
    (has_key "maxEmployees" q); reflexivity.
Qed.

Lemma Job_build_by_rules (q : object) :
  Job.build q
  = by_rules JobRules.rules JobRules.predicate
             (JobRules.matched q) (JobRules.bound q).
Proof.
  unfold by_rules, JobRules.rules, JobRules.matched, JobRules.bound,
    Job.build, Job.hasEquity_filter, Job.minSalary_filter, Job.title_filter.
  cbn [List.filter String.eqb Ascii.eqb Bool.eqb andb].
  destruct (has_key "title" q), (has_key "minSalary" q),
    (has_key "hasEquity" q), (is_true (get_property q "hasEquity")); reflexivity.
Qed.

Lemma whereClause_joined (st : filters) :
  conditions st <> [] ->
  whereClause st = "WHERE " +:+ join " AND " (conditions st).
Proof.
  unfold whereClause. destruct (conditions st); [contradiction | reflexivity].
Qed.

(** C6: each listing pushes the predicates of the recognized keys that
    are matched (all of them present in the criteria), numbered in the
    declared order of its rules -- name, minEmployees, maxEmployees for
    companies and title, minSalary, hasEquity for jobs -- and joins them
    with [" AND "]; the order of the keys in the criteria does not show:
    two criteria with the same properties in another order give the same
    clause and values, as for minEmployees 10 and maxEmployees 50. *)
Theorem filters_in_declared_order :
  (forall q,
      Company.build q
      = by_rules CompanyRules.rules CompanyRules.predicate
                 (CompanyRules.matched q) (CompanyRules.bound q) /\
      Job.build q
      = by_rules JobRules.rules JobRules.predicate
                 (JobRules.matched q) (JobRules.bound q)) /\
  (forall q key,
      (CompanyRules.matched q key = true -> has_key key q = true) /\
      (JobRules.matched q key = true -> has_key key q = true)) /\
  (forall st, conditions st <> [] ->
      whereClause st = "WHERE " +:+ join " AND " (conditions st)) /\
  (forall q q', wf_object q -> q ≡ₚ q' ->
      Company.build q = Company.build q' /\ Job.build q = Job.build q') /\
  (let expected :=
     {| conditions := ["num_employees >= $1"; "num_employees <= $2"];
        values := [VInt 10; VInt 50] |} in
   Company.build [("minEmployees", VInt 10); ("maxEmployees", VInt 50)] = expected /\
   Company.build [("maxEmployees", VInt 50); ("minEmployees", VInt 10)] = expected /\
   whereClause expected = "WHERE num_employees >= $1 AND num_employees <= $2").
Proof.
  split; [| split; [| split; [| split]]].
  - intros q. split; [apply Company_build_by_rules | apply Job_build_by_rules].
  - intros q key. unfold CompanyRules.matched, JobRules.matched. split.
    + intros Hm; exact Hm.
    + intros [Hm _]%andb_true_iff; exact Hm.
  - apply whereClause_joined.
  - intros q q' Hwf Hperm. split.
    + apply Company_build_ext. intros key. apply own_property_permutation; assumption.
    + apply Job_build_ext. intros key. apply own_property_permutation; assumption.
  - repeat split.
Qed.

Lemma filters_in_declared_order_witness :
  let q := [("minEmployees", VInt 10); ("maxEmployees", VInt 50)] in
  let q' := [("maxEmployees", VInt 50); ("minEmployees", VInt 10)] in
  wf_object q /\ q ≡ₚ q' /\
  Company.build q = Company.build q' /\ Job.build q = Job.build q'.
Proof.
  assert (wf_object [("minEmployees", VInt 10); ("maxEmployees", VInt 50)]) as Hwf.
  { apply (bool_decide_unpack _). vm_compute. exact I. }
  assert ([("minEmployees", VInt 10); ("maxEmployees", VInt 50)]
          ≡ₚ [("maxEmployees", VInt 50); ("minEmployees", VInt 10)]) as Hperm.
  { apply perm_swap. }
  split; [exact Hwf |]. split; [exact Hperm |].
  exact (proj1 (proj2 (proj2 (proj2 filters_in_declared_order))) _ _ Hwf Hperm).
Defined.

(** C7, as the code has it: when hasEquity is present in the criteria of
    a job listing and is [true], the listing pushes the predicate
    [equity > $n] at the next position and binds the literal 0, not the
    value of the criteria; with any other value of hasEquity it pushes
    nothing for it.  The criteria that hold only hasEquity [true] give
    one predicate and the values [[0]]. *)
Theorem hasEquity_true_binds_zero :
  (forall q,
      has_key "hasEquity" q = true ->
      get_property q "hasEquity" = VBool true ->
      let st := Job.minSalary_filter q (Job.title_filter q no_filters) in
      Job.build q
      = {| conditions :=
             conditions st ++ ["equity > $" +:+ show (length (values st) + 1)];
           values := values st ++ [VInt 0] |}) /\
  (forall q,
      get_property q "hasEquity" <> VBool true ->
      Job.build q = Job.minSalary_filter q (Job.title_filter q no_filters)) /\
  Job.build [("hasEquity", VBool true)]
  = {| conditions := ["equity > $1"]; values := [VInt 0] |}.
Proof.
  split; [| split].
  - intros q Hin Hv st. unfold Job.build, Job.hasEquity_filter.
    rewrite Hin, Hv. reflexivity.
  - intros q Hv. unfold Job.build, Job.hasEquity_filter.
    destruct (get_property q "hasEquity") as [| |[|]| |]; try contradiction;
      rewrite andb_false_r; reflexivity.
  - reflexivity.
Qed.

Lemma hasEquity_true_binds_zero_witness :
  let q := [("minSalary", VInt 100); ("hasEquity", VBool true)] in
  has_key "hasEquity" q = true /\
  get_property q "hasEquity" = VBool true /\
  Job.build q
  = {| conditions := ["salary >= $1"; "equity > $2"];
       values := [VInt 100; VInt 0] |}.
Proof.
  split; [reflexivity |]. split; [reflexivity |].
  exact (proj1 hasEquity_true_binds_zero
           [("minSalary", VInt 100); ("hasEquity", VBool true)]
           eq_refl eq_refl).
Defined.

(** C7 as stated fails on hasEquity [false]: the key is present, and the
    listing pushes no predicate and binds no value. *)
Lemma hasEquity_false_gives_no_predicate :
  let q := [("hasEquity", VBool false)] in
  has_key "hasEquity" q = true /\
  Job.build q = {| conditions := []; values := [] |} /\
  Job.findAll q = Return {| text := Job.statement ""; params := [] |}.
Proof. repeat split. Qed.

(** ** The range check and the statements *)

(** A listing with a filter does say [WHERE]. *)
Example Company_select_name :
  let q := Company.select [("name", VStr "net")] in
  params q = [VStr "net"] /\
  includes (text q) "WHERE name ILIKE '%' || $1 || '%'" = true /\
  numbered (text q) (params q).
Proof. repeat split. Qed.

Lemma no_key_undefined (q : object) (key : string) :
  has_key key q = false -> get_property q key = VUndefined.
Proof.
  unfold has_key, get_property.
  destruct (own_property key q); [discriminate | reflexivity].
Qed.

Lemma gt_NaN_l (b : number) : gt NaN b = false.
Proof. reflexivity. Qed.

Lemma gt_NaN_r (a : number) : gt a NaN = false.
Proof. destruct a as [|[|]|]; reflexivity. Qed.

Lemma gt_Fin (a b : Q) : (b < a)%Q -> gt (Fin a) (Fin b) = true.
Proof.
  intros Hlt. cbn. apply negb_true_iff.
  destruct (Qle_bool a b) eqn:Hle; [| reflexivity].
  apply Qle_bool_iff in Hle. exfalso. exact (Qlt_not_le _ _ Hlt Hle).
Qed.

Lemma own_property_set_eq (o : object) (key : string) (v : value) :
  own_property key (set_property o key v) = Some v.
Proof.
  induction o as [|[k w] o IH]; cbn.
  - rewrite String.eqb_refl. reflexivity.
  - destruct (String.eqb k key) eqn:Hk; cbn; rewrite Hk; [reflexivity | exact IH].
Qed.

Lemma own_property_set_ne (o : object) (key key' : string) (v : value) :
  key <> key' ->
  own_property key' (set_property o key v) = own_property key' o.
Proof.
  intros Hne. induction o as [|[k w] o IH]; cbn.
  - apply String.eqb_neq in Hne. rewrite Hne. reflexivity.
  - destruct (String.eqb_spec k key) as [-> | Hk]; cbn.
    + apply String.eqb_neq in Hne. rewrite Hne. reflexivity.
    + rewrite IH. reflexivity.
Qed.

Section Listings.

Context `{Engine}.

(** The route's coercion leaves [Number] of every bound as it was. *)
Lemma Number_to_number (key key' : string) (q : object) :
  Number (get_property (CompanyRoutes.to_number key q) key')
  = Number (get_property q key').
Proof.
  unfold CompanyRoutes.to_number.
  destruct (has_key key q) eqn:Hin; [| reflexivity].
  unfold get_property at 1.
  destruct (String.eqb_spec key key') as [<- | Hne].
  - rewrite own_property_set_eq. reflexivity.
  - rewrite own_property_set_ne by exact Hne. reflexivity.
Qed.

Lemma Company_findAll_checked (q : object) :
  gt (Number (get_property q "minEmployees"))
     (Number (get_property q "maxEmployees")) = false ->
  Company.findAll q = Return (Company.select q).
Proof. unfold Company.findAll. intros ->. reflexivity. Qed.

(** C8: the filters of a listing have no failing path -- [Job.findAll]
    always returns its query, and [Company.findAll] returns its query
    whenever the range check lets the criteria through -- and when no
    rule matches (the empty criteria included) both return a statement
    without any [WHERE], with no parameter. *)
Theorem filters_never_fail :
  (forall q, Job.findAll q = Return (Job.select q)) /\
  (forall q,
      gt (Number (get_property q "minEmployees"))
         (Number (get_property q "maxEmployees")) = false ->
      Company.findAll q = Return (Company.select q)) /\
  (forall q,
      has_key "name" q = false ->
      has_key "minEmployees" q = false ->
      has_key "maxEmployees" q = false ->
      whereClause (Company.build q) = "" /\
      values (Company.build q) = [] /\
      Company.findAll q = Return {| text := Company.statement ""; params := [] |}) /\
  (forall q,
      has_key "title" q = false ->
      has_key "minSalary" q = false ->
      has_key "hasEquity" q && is_true (get_property q "hasEquity") = false ->
      whereClause (Job.build q) = "" /\
      values (Job.build q) = [] /\
      Job.findAll q = Return {| text := Job.statement ""; params := [] |}) /\
  includes (Company.statement "") "WHERE" = false /\
  includes (Job.statement "") "WHERE" = false /\
  Company.findAll [] = Return {| text := Company.statement ""; params := [] |} /\
  Job.findAll [] = Return {| text := Job.statement ""; params := [] |}.
Proof.
  split; [reflexivity |].
  split; [apply Company_findAll_checked |].
  split; [| split].
  - intros q Hname Hmin Hmax.
    assert (Company.build q = no_filters) as Hbuild.
    { unfold Company.build, Company.maxEmployees_filter,
        Company.minEmployees_filter, Company.name_filter.
      rewrite Hname, Hmin, Hmax. reflexivity. }
    rewrite Hbuild. do 2 (split; [reflexivity |]).
    rewrite Company_findAll_checked.
    + unfold Company.select. rewrite Hbuild. reflexivity.
    + rewrite (no_key_undefined q "minEmployees" Hmin). reflexivity.
  - intros q Htitle Hmin Heq.
    assert (Job.build q = no_filters) as Hbuild.
    { unfold Job.build, Job.hasEquity_filter, Job.minSalary_filter,
        Job.title_filter.
      rewrite Htitle, Hmin, Heq. reflexivity. }
    rewrite Hbuild. do 2 (split; [reflexivity |]).
    unfold Job.findAll, Job.select. rewrite Hbuild. reflexivity.
  - repeat split.
Qed.

(** C9, as the code has it: [Company.findAll] compares
    [Number(minEmployees)] with [Number(maxEmployees)] before it builds
    anything: when the first is greater -- as when both are given as
    numbers and the minimum exceeds the maximum -- it throws
    [BadRequestError], builds no filter and issues no query; the check
    validates nothing itself, so a bound that coerces to NaN makes the
    comparison false and the listing goes on to its query.  In the
    route this check comes after the validation, not before it: criteria
    that the schema refuses end in the [BadRequestError] of the
    validation, with its error stacks, whatever the bounds are, and the
    range check is made only on criteria that the schema accepts. *)
Theorem range_check :
  (forall q,
      gt (Number (get_property q "minEmployees"))
         (Number (get_property q "maxEmployees")) = true ->
      Company.findAll q = Throw (BadRequestError NoMessage)) /\
  (forall q a b,
      get_property q "minEmployees" = VNum (Fin a) ->
      get_property q "maxEmployees" = VNum (Fin b) ->
      (b < a)%Q ->
      Company.findAll q = Throw (BadRequestError NoMessage)) /\
  (forall q,
      Number (get_property q "minEmployees") = NaN \/
      Number (get_property q "maxEmployees") = NaN ->
      Company.findAll q = Return (Company.select q)) /\
  (forall validate q,
      let queries :=
        CompanyRoutes.to_number "maxEmployees"
          (CompanyRoutes.to_number "minEmployees" q) in
      CompanyRoutes.get validate q
      = match validate queries with
        | Some errs => Throw (BadRequestError (Stacks errs))
        | None =>
            if gt (Number (get_property q "minEmployees"))
                  (Number (get_property q "maxEmployees"))
            then Throw (BadRequestError NoMessage)
            else Return (Company.select queries)
        end).
Proof.
  split; [| split; [| split]].
  - intros q Hgt. unfold Company.findAll. rewrite Hgt. reflexivity.
  - intros q a b Hmin Hmax Hlt. unfold Company.findAll.
    rewrite Hmin, Hmax. cbn [Number]. rewrite (gt_Fin a b Hlt). reflexivity.
  - intros q [Hnan | Hnan]; apply Company_findAll_checked; rewrite Hnan.
    + apply gt_NaN_l.
    + apply gt_NaN_r.
  - intros validate q queries. unfold CompanyRoutes.get. fold queries.
    destruct (validate queries) as [errs |]; [reflexivity |].
    unfold Company.findAll, queries. rewrite !Number_to_number. reflexivity.
Qed.

Lemma Company_findAll_returns (q : object) (r : query) :
  Company.findAll q = Return r -> r = Company.select q.
Proof.
  unfold Company.findAll.
  destruct (gt _ _); [discriminate | intros [= <-]; reflexivity].
Qed.

Lemma Company_conditions_by_presence (q1 q2 : object) :
  has_key "name" q1 = has_key "name" q2 ->
  has_key "minEmployees" q1 = has_key "minEmployees" q2 ->
  has_key "maxEmployees" q1 = has_key "maxEmployees" q2 ->
  conditions (Company.build q1) = conditions (Company.build q2).
Proof.
  intros Hname Hmin Hmax.
  unfold Company.build, Company.maxEmployees_filter,
    Company.minEmployees_filter, Company.name_filter.
  rewrite Hname, Hmin, Hmax.
  destruct (has_key "name" q2), (has_key "minEmployees" q2),
    (has_key "maxEmployees" q2); reflexivity.
Qed.

Lemma Job_conditions_by_presence (q1 q2 : object) :
  has_key "title" q1 = has_key "title" q2 ->
  has_key "minSalary" q1 = has_key "minSalary" q2 ->
  has_key "hasEquity" q1 = has_key "hasEquity" q2 ->
  is_true (get_property q1 "hasEquity") = is_true (get_property q2 "hasEquity") ->
  conditions (Job.build q1) = conditions (Job.build q2).
Proof.
  intros Htitle Hmin Hhas Htrue.
  unfold Job.build, Job.hasEquity_filter, Job.minSalary_filter, Job.title_filter.
  rewrite Htitle, Hmin, Hhas, Htrue.
  destruct (has_key "title" q2), (has_key "minSalary" q2),
    (has_key "hasEquity" q2), (is_true (get_property q2 "hasEquity")); reflexivity.
Qed.

(** C10: the text of the statement of a listing is a function of which
    recognized keys the criteria hold (and, for hasEquity, of whether its
    value is [true]): two criteria that agree on this give the same text,
    whatever their values, which only reach the parameters. *)
Theorem statement_text_by_presence :
  (forall q1 q2 r1 r2,
      has_key "name" q1 = has_key "name" q2 ->
      has_key "minEmployees" q1 = has_key "minEmployees" q2 ->
      has_key "maxEmployees" q1 = has_key "maxEmployees" q2 ->
      Company.findAll q1 = Return r1 ->
      Company.findAll q2 = Return r2 ->
      text r1 = text r2) /\
  (forall q1 q2 r1 r2,
      has_key "title" q1 = has_key "title" q2 ->
      has_key "minSalary" q1 = has_key "minSalary" q2 ->
      has_key "hasEquity" q1 = has_key "hasEquity" q2 ->
      is_true (get_property q1 "hasEquity") = is_true (get_property q2 "hasEquity") ->
      Job.findAll q1 = Return r1 ->
      Job.findAll q2 = Return r2 ->
      text r1 = text r2).
Proof.
  split.
  - intros q1 q2 r1 r2 Hname Hmin Hmax
      ->%Company_findAll_returns ->%Company_findAll_returns.
    unfold Company.select, whereClause. cbn [text].
    rewrite (Company_conditions_by_presence q1 q2 Hname Hmin Hmax). reflexivity.
  - intros q1 q2 r1 r2 Htitle Hmin Hhas Htrue [= <-] [= <-].
    unfold Job.select, whereClause. cbn [text].
    rewrite (Job_conditions_by_presence q1 q2 Htitle Hmin Hhas Htrue). reflexivity.
Qed.

End Listings.

Lemma filters_never_fail_witness :
  let q := [("page", VStr "2")] in
  has_key "name" q = false /\
  has_key "minEmployees" q = false /\
  has_key "maxEmployees" q = false /\
  whereClause (Company.build q) = "" /\
  values (Company.build q) = [] /\
  @Company.findAll digits_engine q
  = Return {| text := Company.statement ""; params := [] |}.
Proof.
  do 3 (split; [reflexivity |]).
  exact (proj1 (proj2 (proj2 (@filters_never_fail digits_engine)))
           [("page", VStr "2")] eq_refl eq_refl eq_refl).
Defined.

Lemma range_check_witness :
  let inverted := [("minEmployees", VInt 50); ("maxEmployees", VInt 10)] in
  let malformed := [("minEmployees", VStr "abc"); ("maxEmployees", VInt 10)] in
  (get_property inverted "minEmployees" = VInt 50 /\
   get_property inverted "maxEmployees" = VInt 10 /\
   (inject_Z 10 < inject_Z 50)%Q /\
   @Company.findAll digits_engine inverted = Throw (BadRequestError NoMessage)) /\
  (@Number digits_engine (get_property malformed "minEmployees") = NaN /\
   @Company.findAll digits_engine malformed = Return (Company.select malformed)) /\
  (@CompanyRoutes.get digits_engine (fun _ => None)
     [("minEmployees", VStr "50"); ("maxEmployees", VStr "10")]
   = Throw (BadRequestError NoMessage)).
Proof.
  split; [| split].
  - do 3 (split; [reflexivity |]).
    exact (proj1 (proj2 (@range_check digits_engine))
             [("minEmployees", VInt 50); ("maxEmployees", VInt 10)]
             (inject_Z 50) (inject_Z 10) eq_refl eq_refl eq_refl).
  - split; [reflexivity |].
    exact (proj1 (proj2 (proj2 (@range_check digits_engine)))
             [("minEmployees", VStr "abc"); ("maxEmployees", VInt 10)]
             (or_introl eq_refl)).
  - exact (proj2 (proj2 (proj2 (@range_check digits_engine)))
             (fun _ => None)
             [("minEmployees", VStr "50"); ("maxEmployees", VStr "10")]).
Defined.

(** C9 as stated fails on the order: with a minimum of 50, a maximum of
    10 and a schema that refuses the criteria, the request ends in the
    error of the validation, with its stacks, and not in the error of
    the range check, which [Company.findAll] would throw on the same
    criteria: the validation comes first. *)
Lemma validation_precedes_range_check :
  let req_query := [("minEmployees", VStr "50"); ("maxEmployees", VStr "10")] in
  let queries :=
    @CompanyRoutes.to_number digits_engine "maxEmployees"
      (@CompanyRoutes.to_number digits_engine "minEmployees" req_query) in
  gt (@Number digits_engine (get_property req_query "minEmployees"))
     (@Number digits_engine (get_property req_query "maxEmployees")) = true /\
  refusing_schema queries = Some ["instance does not match the schema"] /\
  @CompanyRoutes.get digits_engine refusing_schema req_query
  = Throw (BadRequestError (Stacks ["instance does not match the schema"])) /\
  @Company.findAll digits_engine queries = Throw (BadRequestError NoMessage) /\
  @CompanyRoutes.get digits_engine refusing_schema req_query
  <> @Company.findAll digits_engine queries.
Proof. repeat split. discriminate. Qed.

Lemma statement_text_by_presence_witness :
  let q1 := [("name", VStr "net"); ("minEmployees", VInt 10)] in
  let q2 := [("minEmployees", VInt 700); ("name", VStr "ware")] in
  @Company.findAll digits_engine q1 = Return (Company.select q1) /\
  @Company.findAll digits_engine q2 = Return (Company.select q2) /\
  text (Company.select q1) = text (Company.select q2) /\
  params (Company.select q1) <> params (Company.select q2).
Proof.
  do 2 (split; [reflexivity |]).
  split; [| discriminate].
  exact (proj1 (@statement_text_by_presence digits_engine)
           [("name", VStr "net"); ("minEmployees", VInt 10)]
           [("minEmployees", VInt 700); ("name", VStr "ware")]
           _ _ eq_refl eq_refl eq_refl eq_refl eq_refl).
Defined.

(** * The rest of the models, the middleware and the routes *)

(** ** Programs against the database *)

Lemma run_always_sends {A S : Type} (P : query -> Prop)
    (exec : S -> query -> list row * S) (p : db A) (s : S) :
  always_sends P p -> Forall P (run exec p s).2.
Proof.
  revert s. induction p as [a | e | q k IH]; intros s Hp; cbn.
  - constructor.
  - constructor.
  - destruct Hp as [Hq Hk]. destruct (exec s q) as [rows s'].
    specialize (IH rows s' (Hk rows)).
    destruct (run exec (k rows) s') as [r sent]. cbn in *.
    constructor; assumption.
Qed.

(** ** The SET clause and the values *)

(** X1: the SET clause of [sqlForPartialUpdate] is a function of the keys
    of the update and of the name map: two updates with the same keys
    give the same clause, whatever their values. *)
Theorem setCols_by_keys (d1 d2 : object) (m : gmap string string)
    (r1 r2 : Sql.result) :
  Object_keys d1 = Object_keys d2 ->
  Sql.sqlForPartialUpdate d1 m = Return r1 ->
  Sql.sqlForPartialUpdate d2 m = Return r2 ->
  Sql.setCols r1 = Sql.setCols r2.
Proof.
  unfold Sql.sqlForPartialUpdate. intros ->.
  destruct (length (Object_keys d2) =? 0)%nat; [discriminate |].
  intros [= <-] [= <-]. reflexivity.
Qed.

Lemma setCols_by_keys_witness :
  let d1 := [("name", VStr "Anderson"); ("numEmployees", VInt 245)] in
  let d2 := [("name", VStr "x', name='y"); ("numEmployees", VStr "0; --")] in
  Object_keys d1 = Object_keys d2 /\
  forall r1 r2,
    Sql.sqlForPartialUpdate d1 ∅ = Return r1 ->
    Sql.sqlForPartialUpdate d2 ∅ = Return r2 ->
    Sql.setCols r1 = Sql.setCols r2.
Proof.
  split; [reflexivity |].
  intros r1 r2.
  exact (setCols_by_keys
           [("name", VStr "Anderson"); ("numEmployees", VInt 245)]
           [("name", VStr "x', name='y"); ("numEmployees", VStr "0; --")]
           ∅ r1 r2 eq_refl).
Defined.

(** ** The statement of an update *)

Lemma scan_plain (p rest : string) :
  plain p = true -> scan Code (p +:+ rest) = scan Code rest.
Proof.
  induction p as [|c p IH]; cbn; [reflexivity |].
  destruct (code_char c); try discriminate. exact IH.
Qed.

Lemma scan_param_plain (n : nat) (c : ascii) (p rest : string) :
  digit c = None -> plain (String c p) = true ->
  scan (Param n) (String c p +:+ rest) = n :: scan Code rest.
Proof.
  intros Hd Hp. cbn in *. rewrite Hd.
  destruct (code_char c); try discriminate. cbn.
  rewrite scan_plain by exact Hp. reflexivity.
Qed.

Lemma placeholders_assignments_rest (column : string -> string)
    (keys : list string) (off : nat) (rest : string) :
  keys <> [] ->
  Forall (fun k => has_char dquote (column k) = false) keys ->
  scan Code (join ", "
    (imap (fun idx k => assignment (column k) (off + idx + 1)) keys) +:+ rest)
  = seq (off + 1) (length keys - 1) ++ scan (Param (off + length keys)) rest.
Proof.
  revert off. induction keys as [|k keys IH]; intros off Hne Hkeys; [contradiction |].
  apply Forall_cons in Hkeys as [Hk Hkeys].
  rewrite imap_cons.
  rewrite (imap_ext _ (fun idx k => assignment (column k) (S off + idx + 1)))
    by (intros; unfold compose; cbv beta; f_equal; lia).
  destruct keys as [|k' keys].
  - rewrite imap_nil. unfold join. cbn [String.concat length].
    rewrite scan_assignment by exact Hk. cbn. do 2 f_equal; lia.
  - specialize (IH (S off) ltac:(discriminate) Hkeys).
    rewrite imap_cons in *. rewrite join_cons_cons, !append_assoc.
    rewrite scan_assignment by exact Hk.
    rewrite scan_param_comma, IH. cbn [length seq Nat.sub].
    rewrite Nat.sub_0_r. cbn [app].
    replace (off + 0 + 1) with (off + 1) by lia.
    replace (S off + 1) with (S (off + 1)) by lia.
    replace (S off + S (length keys)) with (off + S (S (length keys))) by lia.
    reflexivity.
Qed.

Lemma scan_code_dollar (s : string) : scan Code ("$" +:+ s) = scan Dollar s.
Proof. reflexivity. Qed.

Lemma seq_two_more (n : nat) :
  0 < n -> seq 1 (n - 1) ++ [n; n + 1] = seq 1 (n + 1).
Proof.
  intros Hn. replace (n + 1) with ((n - 1) + 2) at 2 by lia.
  rewrite seq_app. cbn [seq]. do 2 f_equal; [lia | f_equal; lia].
Qed.

(** The statement of an update: the assignments, then the placeholder of
    the key of the row. *)
Ltac update_text_numbered column keys Hne Hkeys :=
  rewrite scan_plain by reflexivity;
  etransitivity;
    [apply (placeholders_assignments_rest column keys 0 _ Hne Hkeys) |];
  rewrite scan_param_plain by reflexivity;
  rewrite append_assoc, scan_code_dollar, scan_dollar_show;
  etransitivity; [| apply seq_two_more; destruct keys; [contradiction | cbn; lia]];
  reflexivity.

Lemma Company_update_text_numbered (column : string -> string) (keys : list string) :
  keys <> [] ->
  Forall (fun k => has_char dquote (column k) = false) keys ->
  placeholders
    (CompanyModel.update_text
       (join ", " (imap (fun idx k => assignment (column k) (idx + 1)) keys))
       ("$" +:+ show (length keys + 1)))
  = seq 1 (length keys + 1).
Proof.
  intros Hne Hkeys. unfold placeholders, CompanyModel.update_text.
  update_text_numbered column keys Hne Hkeys.
Qed.

Lemma Job_update_text_numbered (column : string -> string) (keys : list string) :
  keys <> [] ->
  Forall (fun k => has_char dquote (column k) = false) keys ->
  placeholders
    (JobModel.update_text
       (join ", " (imap (fun idx k => assignment (column k) (idx + 1)) keys))
       ("$" +:+ show (length keys + 1)))
  = seq 1 (length keys + 1).
Proof.
  intros Hne Hkeys. unfold placeholders, JobModel.update_text.
  update_text_numbered column keys Hne Hkeys.
Qed.

Lemma has_char_append (c : ascii) (s1 s2 : string) :
  has_char c (s1 +:+ s2) = has_char c s1 || has_char c s2.
Proof.
  induction s1 as [|c1 s1 IH]; cbn; [reflexivity |].
  rewrite IH, orb_assoc. reflexivity.
Qed.

(** The text of an inherited member holds no double quote, unless its
    name does. *)
Lemma inherited_unquoted (k : string) :
  has_char dquote k = false ->
  has_char dquote
    match Object_prototype k with Some member => member | None => k end = false.
Proof.
  intros Hk. unfold Object_prototype.
  destruct (String.eqb k "constructor"); [reflexivity |].
  destruct (existsb _ _).
  - unfold native_function. rewrite !has_char_append, Hk. reflexivity.
  - destruct (String.eqb k "__proto__"); [reflexivity | exact Hk].
Qed.

Lemma Company_column_unquoted (k : string) :
  has_char dquote k = false ->
  has_char dquote (Sql.column CompanyModel.jsToSql k) = false.
Proof.
  intros Hk. unfold Sql.column, CompanyModel.jsToSql.
  destruct (_ !! k) as [name|] eqn:Hname; [| apply inherited_unquoted, Hk].
  apply lookup_insert_Some in Hname as [[_ <-] | [_ Hname]]; [reflexivity |].
  apply lookup_insert_Some in Hname as [[_ <-] | [_ Hname]]; [reflexivity |].
  rewrite lookup_empty in Hname. discriminate.
Qed.

Lemma Job_column_unquoted (k : string) :
  has_char dquote k = false ->
  has_char dquote (Sql.column JobModel.jsToSql k) = false.
Proof.
  intros Hk. unfold Sql.column, JobModel.jsToSql.
  destruct (_ !! k) as [name|] eqn:Hname; [| apply inherited_unquoted, Hk].
  apply lookup_insert_Some in Hname as [[_ <-] | [_ Hname]]; [reflexivity |].
  rewrite lookup_empty in Hname. discriminate.
Qed.

Lemma Object_values_length (d : object) :
  length (Object_values d) = length (Object_keys d).
Proof. unfold Object_values, Object_keys. rewrite !length_fmap. reflexivity. Qed.

Section Models.

Context `{Printer}.

(** X2: [Company.update] and [Job.update] with data that are not empty
    and whose keys hold no double quote send one statement, whose
    parameters are the values of the data followed by the key of the
    row, and whose placeholders are [$1], ..., [$(n+1)] in this order;
    they return the first row that comes back and throw [NotFoundError]
    with the key in its message when none does. *)
Theorem update_statement {S : Type} (exec : S -> query -> list row * S) (s : S)
    (key : value) (data : object) :
  data <> [] ->
  (forall k, k ∈ Object_keys data -> has_char dquote k = false) ->
  (exists q,
      run exec (CompanyModel.update key data) s
      = (match head (exec s q).1 with
         | Some company => Returned company
         | None => Threw (NotFoundError (Message ("No company: " +:+ ToString key)))
         end, [q]) /\
      params q = Object_values data ++ [key] /\
      numbered (text q) (params q)) /\
  (exists q,
      run exec (JobModel.update key data) s
      = (match head (exec s q).1 with
         | Some job => Returned job
         | None => Threw (NotFoundError (Message ("No job: " +:+ ToString key)))
         end, [q]) /\
      params q = Object_values data ++ [key] /\
      numbered (text q) (params q)).
Proof.
  intros Hne Hkeys.
  assert (Object_keys data <> []) as Hne'
    by (destruct data; [contradiction | discriminate]).
  split.
  - unfold CompanyModel.update.
    rewrite sqlForPartialUpdate_nonempty by exact Hne.
    cbn [Sql.setCols Sql.values].
    exists {| text :=
                CompanyModel.update_text
                  (join ", "
                     (imap (fun idx k =>
                              assignment (Sql.column CompanyModel.jsToSql k) (idx + 1))
                           (Object_keys data)))
                  ("$" +:+ show (length (Object_values data) + 1));
              params := Object_values data ++ [key] |}.
    split; [| split].
    + cbn [run]. destruct (exec s _) as [rows s']. cbn [fst].
      destruct (head rows); reflexivity.
    + reflexivity.
    + unfold numbered. cbn [text params].
      rewrite length_app, Object_values_length. cbn [length].
      apply (Company_update_text_numbered (Sql.column CompanyModel.jsToSql));
        [exact Hne' |].
      apply Forall_forall. intros k Hk. apply Company_column_unquoted, Hkeys, Hk.
  - unfold JobModel.update.
    rewrite sqlForPartialUpdate_nonempty by exact Hne.
    cbn [Sql.setCols Sql.values].
    exists {| text :=
                JobModel.update_text
                  (join ", "
                     (imap (fun idx k =>
                              assignment (Sql.column JobModel.jsToSql k) (idx + 1))
                           (Object_keys data)))
                  ("$" +:+ show (length (Object_values data) + 1));
              params := Object_values data ++ [key] |}.
    split; [| split].
    + cbn [run]. destruct (exec s _) as [rows s']. cbn [fst].
      destruct (head rows); reflexivity.
    + reflexivity.
    + unfold numbered. cbn [text params].
      rewrite length_app, Object_values_length. cbn [length].
      apply (Job_update_text_numbered (Sql.column JobModel.jsToSql));
        [exact Hne' |].
      apply Forall_forall. intros k Hk. apply Job_column_unquoted, Hkeys, Hk.
Qed.

(** X3: the text of the statement of an update is a function of the keys
    of the data: the values and the key of the row only reach the
    parameters. *)
Theorem update_text_by_keys (key1 key2 : value) (d1 d2 : object)
    (q1 q2 : query) (k1 k2 : list row -> db row) :
  Object_keys d1 = Object_keys d2 ->
  (CompanyModel.update key1 d1 = Query q1 k1 ->
   CompanyModel.update key2 d2 = Query q2 k2 ->
   text q1 = text q2) /\
  (JobModel.update key1 d1 = Query q1 k1 ->
   JobModel.update key2 d2 = Query q2 k2 ->
   text q1 = text q2).
Proof.
  intros Hkeys.
  assert (forall m, match Sql.sqlForPartialUpdate d1 m, Sql.sqlForPartialUpdate d2 m with
                    | Return r1, Return r2 =>
                        Sql.setCols r1 = Sql.setCols r2 /\
                        length (Sql.values r1) = length (Sql.values r2)
                    | _, _ => True
                    end) as Hsame.
  { intros m. unfold Sql.sqlForPartialUpdate. rewrite Hkeys.
    destruct (length (Object_keys d2) =? 0)%nat; [exact I |].
    cbn. rewrite !Object_values_length, Hkeys. split; reflexivity. }
  split.
  - unfold CompanyModel.update. specialize (Hsame CompanyModel.jsToSql).
    destruct (Sql.sqlForPartialUpdate d1 _) as [r1|]; [| discriminate].
    destruct (Sql.sqlForPartialUpdate d2 _) as [r2|]; [| discriminate].
    destruct Hsame as [Hcols Hlen].
    intros [= <- _] [= <- _]. cbn. rewrite Hcols, Hlen. reflexivity.
  - unfold JobModel.update. specialize (Hsame JobModel.jsToSql).
    destruct (Sql.sqlForPartialUpdate d1 _) as [r1|]; [| discriminate].
    destruct (Sql.sqlForPartialUpdate d2 _) as [r2|]; [| discriminate].
    destruct Hsame as [Hcols Hlen].
    intros [= <- _] [= <- _]. cbn. rewrite Hcols, Hlen. reflexivity.
Qed.

End Models.

Lemma update_statement_witness :
  let data := [("name", VStr "New"); ("numEmployees", VInt 10)] in
  let key := VStr "c1" in
  data <> [] /\
  (forall k, k ∈ Object_keys data -> has_char dquote k = false) /\
  (exists q,
      run empty_database (@CompanyModel.update no_number_printer key data) tt
      = (match head (empty_database tt q).1 with
         | Some company => Returned company
         | None => Threw (NotFoundError (Message ("No company: " +:+ "c1")))
         end, [q]) /\
      params q = Object_values data ++ [key] /\
      numbered (text q) (params q)).
Proof.
  assert (forall k, k ∈ Object_keys [("name", VStr "New"); ("numEmployees", VInt 10)] ->
                    has_char dquote k = false) as Hkeys.
  { intros k Hk. unfold Object_keys in Hk. cbn in Hk.
    apply elem_of_cons in Hk as [-> | Hk]; [reflexivity |].
    apply elem_of_cons in Hk as [-> | Hk]; [reflexivity |].
    inversion Hk. }
  split; [discriminate |]. split; [exact Hkeys |].
  exact (proj1 (@update_statement no_number_printer unit empty_database tt
                  (VStr "c1") [("name", VStr "New"); ("numEmployees", VInt 10)]
                  ltac:(discriminate) Hkeys)).
Defined.

Lemma update_text_by_keys_witness :
  let d1 := [("title", VStr "Engineer"); ("salary", VInt 100)] in
  let d2 := [("title", VStr "x', salary=0 --"); ("salary", VNull)] in
  Object_keys d1 = Object_keys d2 /\
  forall q1 q2 k1 k2,
    @JobModel.update no_number_printer (VStr "1") d1 = Query q1 k1 ->
    @JobModel.update no_number_printer (VStr "2") d2 = Query q2 k2 ->
    text q1 = text q2.
Proof.
  split; [reflexivity |].
  intros q1 q2 k1 k2.
  exact (proj2 (@update_text_by_keys no_number_printer (VStr "1") (VStr "2")
                  [("title", VStr "Engineer"); ("salary", VInt 100)]
                  [("title", VStr "x', salary=0 --"); ("salary", VNull)]
                  q1 q2 k1 k2 eq_refl)).
Defined.

(** ** The statements of the models *)

Lemma Company_select_numbered (q : object) :
  numbered (text (Company.select q)) (params (Company.select q)).
Proof.
  unfold numbered, Company.select, Company.build, Company.maxEmployees_filter,
    Company.minEmployees_filter, Company.name_filter.
  destruct (has_key "name" q), (has_key "minEmployees" q),
    (has_key "maxEmployees" q); reflexivity.
Qed.

Lemma Job_select_numbered (q : object) :
  numbered (text (Job.select q)) (params (Job.select q)).
Proof.
  unfold numbered, Job.select, Job.build, Job.hasEquity_filter,
    Job.minSalary_filter, Job.title_filter.
  destruct (has_key "title" q), (has_key "minSalary" q),
    (has_key "hasEquity" q), (is_true (get_property q "hasEquity")); reflexivity.
Qed.

Section Statements.

Context `{Printer} `{Engine}.

(** X4: every statement that [create], [findAll], [get] and [remove] of
    both models send, on any input and whatever the database answers,
    has the placeholders [$1], ..., [$n] of its [n] parameters, once each
    and in this order. *)
Theorem statements_numbered {S : Type} (exec : S -> query -> list row * S) (s : S) :
  (forall data, Forall well_numbered (run exec (CompanyModel.create data) s).2) /\
  (forall queries, Forall well_numbered (run exec (CompanyModel.findAll queries) s).2) /\
  (forall handle, Forall well_numbered (run exec (CompanyModel.get handle) s).2) /\
  (forall handle, Forall well_numbered (run exec (CompanyModel.remove handle) s).2) /\
  (forall data, Forall well_numbered (run exec (JobModel.create data) s).2) /\
  (forall queries, Forall well_numbered (run exec (JobModel.findAll queries) s).2) /\
  (forall id, Forall well_numbered (run exec (JobModel.get id) s).2) /\
  (forall id, Forall well_numbered (run exec (JobModel.remove id) s).2).
Proof.
  repeat split; intros x; apply run_always_sends.
  - cbn. split; [reflexivity |]. intros rows.
    destruct (head rows); cbn; [exact I |]. split; [reflexivity | intros; exact I].
  - unfold CompanyModel.findAll.
    destruct (Company.findAll x) as [q|e] eqn:Hq; cbn; [| exact I].
    apply Company_findAll_returns in Hq as ->.
    split; [apply Company_select_numbered | intros; exact I].
  - cbn. split; [reflexivity |]. intros jobs.
    split; [reflexivity |]. intros rows. destruct (head rows); exact I.
  - cbn. split; [reflexivity |]. intros rows. destruct (head rows); exact I.
  - cbn. split; [reflexivity |]. intros rows.
    destruct (head rows); cbn; [| exact I]. split; [reflexivity | intros; exact I].
  - cbn. split; [apply Job_select_numbered | intros; exact I].
  - cbn. split; [reflexivity |]. intros rows. destruct (head rows); exact I.
  - cbn. split; [reflexivity |]. intros rows. destruct (head rows); exact I.
Qed.

End Statements.

(** ** Creating, reading and removing *)

Section Rows.

Context `{Printer}.

(** X5: [Company.create] first looks the handle up: when a row comes
    back it throws [BadRequestError] with the handle in its message and
    sends no INSERT; when none does it sends the INSERT with the handle,
    name, description, numEmployees and logoUrl of the data, in this
    order, and returns the first row of its answer. *)
Theorem Company_create_checks_duplicate {S : Type}
    (exec : S -> query -> list row * S) (s : S) (data : object) :
  let handle := get_property data "handle" in
  let check := {| text := CompanyModel.duplicateCheck_text; params := [handle] |} in
  let insert :=
    {| text := CompanyModel.insert_text;
       params := [handle; get_property data "name";
                  get_property data "description";
                  get_property data "numEmployees";
                  get_property data "logoUrl"] |} in
  run exec (CompanyModel.create data) s
  = match head (exec s check).1 with
    | Some _ =>
        (Threw (Raised (BadRequestError
                  (Message ("Duplicate company: " +:+ ToString handle)))),
         [check])
    | None =>
        (Returned (head (exec (exec s check).2 insert).1), [check; insert])
    end.
Proof.
  cbn. destruct (exec s _) as [rows s']. cbn.
  destruct (head rows); cbn; [reflexivity |].
  destruct (exec s' _) as [inserted s'']. reflexivity.
Qed.

(** X6: [Job.create] first looks the company of the job up: when no row
    comes back it throws [NotFoundError] and sends no INSERT; when one
    does it sends the INSERT with the title, salary, equity and
    companyHandle of the data, in this order, and returns the first row
    of its answer. *)
Theorem Job_create_checks_company {S : Type}
    (exec : S -> query -> list row * S) (s : S) (data : object) :
  let companyHandle := get_property data "companyHandle" in
  let check := {| text := JobModel.company_text; params := [companyHandle] |} in
  let insert :=
    {| text := JobModel.insert_text;
       params := [get_property data "title"; get_property data "salary";
                  get_property data "equity"; companyHandle] |} in
  run exec (JobModel.create data) s
  = match head (exec s check).1 with
    | None => (Threw (NotFoundError NoMessage), [check])
    | Some _ =>
        (Returned (head (exec (exec s check).2 insert).1), [check; insert])
    end.
Proof.
  cbn. destruct (exec s _) as [rows s']. cbn.
  destruct (head rows); cbn; [| reflexivity].
  destruct (exec s' _) as [inserted s'']. reflexivity.
Qed.

(** X7: [Company.get] sends the statement of the jobs, then the one of
    the company, both bound to the handle.  It sets [company.jobs]
    before it tests [company]: when no company row comes back it throws
    a [TypeError], and it never throws [NotFoundError]; when one does it
    returns this row with the rows of the first statement as its jobs. *)
Theorem Company_get_never_not_found {S : Type}
    (exec : S -> query -> list row * S) (s : S) (handle : value) :
  let jobs := {| text := CompanyModel.jobs_text; params := [handle] |} in
  let company := {| text := CompanyModel.company_text; params := [handle] |} in
  (run exec (CompanyModel.get handle) s).2 = [jobs; company] /\
  (head (exec (exec s jobs).2 company).1 = None ->
   (run exec (CompanyModel.get handle) s).1 = Threw TypeError) /\
  (forall c, head (exec (exec s jobs).2 company).1 = Some c ->
   (run exec (CompanyModel.get handle) s).1
   = Returned {| CompanyModel.company_row := c;
                 CompanyModel.jobs := (exec s jobs).1 |}) /\
  (forall m, (run exec (CompanyModel.get handle) s).1 <> Threw (NotFoundError m)).
Proof.
  cbn. destruct (exec s _) as [jobsRes s']. cbn.
  destruct (exec s' _) as [companyRes s'']. cbn.
  destruct (head companyRes); cbn; repeat split; intros; congruence.
Qed.

(** X8: [GET /jobs/:id], and [DELETE /jobs/:id] and
    [DELETE /companies/:handle] for an admin, send one statement bound
    to the key of the route; they answer 200 with the row, or with the
    key deleted, when a row comes back, and throw [NotFoundError] with
    the key in its message when none does. *)
Theorem not_found_by_key {S : Type}
    (exec : S -> query -> list row * S) (s : S) (key : string) :
  (let q := {| text := JobModel.get_text; params := [VStr key] |} in
   run exec (JobRouter.get key) s
   = (match head (exec s q).1 with
      | Some job => Returned {| status := 200; body := job |}
      | None => Threw (NotFoundError (Message ("No job: " +:+ key)))
      end, [q])) /\
  (let q := {| text := JobModel.remove_text; params := [VStr key] |} in
   forall user,
     Auth.ensureLoggedIn user = Returned tt ->
     Auth.isAdmin user = Returned tt ->
     run exec (JobRouter.delete user key) s
     = (match head (exec s q).1 with
        | Some _ => Returned {| status := 200; body := key |}
        | None => Threw (NotFoundError (Message ("No job: " +:+ key)))
        end, [q])) /\
  (let q := {| text := CompanyModel.remove_text; params := [VStr key] |} in
   forall user,
     Auth.ensureLoggedIn user = Returned tt ->
     Auth.isAdmin user = Returned tt ->
     run exec (CompanyRouter.delete user key) s
     = (match head (exec s q).1 with
        | Some _ => Returned {| status := 200; body := key |}
        | None => Threw (NotFoundError (Message ("No company: " +:+ key)))
        end, [q])).
Proof.
  split; [| split].
  - cbn. destruct (exec s _) as [rows s']. cbn. destruct (head rows); reflexivity.
  - intros q user Hin Hadmin. unfold JobRouter.delete. rewrite Hin, Hadmin.
    cbn. destruct (exec s _) as [rows s']. cbn. destruct (head rows); reflexivity.
  - intros q user Hin Hadmin. unfold CompanyRouter.delete. rewrite Hin, Hadmin.
    cbn. destruct (exec s _) as [rows s']. cbn. destruct (head rows); reflexivity.
Qed.

End Rows.

(** ** The middleware *)

Lemma strict_equal_VStr (name : string) (v : value) :
  strict_equal (VStr name) v = true <-> v = VStr name.
Proof.
  destruct v as [| |b|n|s]; cbn; try (split; [discriminate | discriminate]).
  rewrite String.eqb_eq. split; [intros ->; reflexivity | intros [= ->]; reflexivity].
Qed.

Lemma is_true_VBool (v : value) : is_true v = true <-> v = VBool true.
Proof.
  destruct v as [| |[|]|n|s]; cbn; split; intros; congruence.
Qed.

(** X9: [isAdminOrCurrentUser] refuses a request with no user; it lets
    through every user that [isAdmin] lets through, whatever the route;
    and a user who is no admin and has a username passes exactly on the
    routes of this username. *)
Theorem isAdminOrCurrentUser_passes :
  (forall req_params,
      Auth.isAdminOrCurrentUser None req_params = Threw UnauthorizedError) /\
  (forall localUser req_params,
      Auth.isAdmin (Some localUser) = Returned tt ->
      Auth.isAdminOrCurrentUser (Some localUser) req_params = Returned tt) /\
  (forall localUser req_params name,
      get_property localUser "username" = VStr name ->
      get_property localUser "isAdmin" <> VBool true ->
      (Auth.isAdminOrCurrentUser (Some localUser) req_params = Returned tt
       <-> get_property req_params "username" = VStr name)).
Proof.
  split; [reflexivity |]. split.
  - intros localUser req_params. unfold Auth.isAdmin, Auth.isAdminOrCurrentUser.
    cbn [Auth.user_property].
    destruct (is_true (get_property localUser "isAdmin")); [| discriminate].
    rewrite andb_false_r. reflexivity.
  - intros localUser req_params name Hname Hadmin.
    unfold Auth.isAdminOrCurrentUser. rewrite Hname.
    destruct (is_true (get_property localUser "isAdmin")) eqn:Htrue.
    { apply is_true_VBool in Htrue. contradiction. }
    rewrite andb_true_r, <- strict_equal_VStr.
    destruct (strict_equal _ _); cbn; split; intros; congruence.
Qed.

Lemma isAdminOrCurrentUser_passes_witness :
  let localUser := [("username", VStr "u1"); ("isAdmin", VBool false)] in
  get_property localUser "username" = VStr "u1" /\
  get_property localUser "isAdmin" <> VBool true /\
  Auth.isAdminOrCurrentUser (Some localUser) [("username", VStr "u1")] = Returned tt /\
  Auth.isAdminOrCurrentUser (Some localUser) [("username", VStr "u2")]
  = Threw UnauthorizedError.
Proof.
  split; [reflexivity |]. split; [discriminate |]. split; [| reflexivity].
  apply (proj2 (proj2 isAdminOrCurrentUser_passes)
           [("username", VStr "u1"); ("isAdmin", VBool false)]
           [("username", VStr "u1")] "u1" eq_refl); [discriminate | reflexivity].
Defined.

(** The tests of [auth.test.js] for the three guards. *)
Example auth_tests :
  Auth.ensureLoggedIn (Some [("username", VStr "test")]) = Returned tt /\
  Auth.ensureLoggedIn None = Threw UnauthorizedError /\
  Auth.ensureLoggedIn (Some []) = Threw UnauthorizedError /\
  Auth.isAdmin (Some [("username", VStr "test"); ("isAdmin", VBool true)])
  = Returned tt /\
  Auth.isAdmin (Some [("username", VStr "test"); ("isAdmin", VBool false)])
  = Threw UnauthorizedError /\
  Auth.isAdmin None = Threw UnauthorizedError /\
  Auth.isAdminOrCurrentUser
    (Some [("username", VStr "admin"); ("isAdmin", VBool true)])
    [("username", VStr "testuser")] = Returned tt /\
  Auth.isAdminOrCurrentUser
    (Some [("username", VStr "wrong"); ("isAdmin", VBool false)])
    [("username", VStr "test")] = Threw UnauthorizedError.
Proof. repeat split. Qed.

Lemma substring_all (s : string) : String.substring 0 (String.length s) s = s.
Proof. induction s as [|c s IH]; cbn; [reflexivity | rewrite IH; reflexivity]. Qed.

Lemma strip_bearer_prefix (token : string) :
  strip_bearer ("Bearer " +:+ token) = token /\
  strip_bearer ("bearer " +:+ token) = token.
Proof.
  unfold strip_bearer. split.
  - replace (String.prefix "Bearer " ("Bearer " +:+ token)) with true
      by (cbn; destruct token; reflexivity).
    cbn. rewrite Nat.sub_0_r. apply substring_all.
  - replace (String.prefix "bearer " ("bearer " +:+ token)) with true
      by (cbn; destruct token; reflexivity).
    rewrite orb_true_r. cbn. rewrite Nat.sub_0_r. apply substring_all.
Qed.

(** X10: [authenticateJWT] leaves [res.locals.user] as it is when there
    is no authorization header, or an empty one, or a token that
    [jwt.verify] refuses -- a request with such a token and no user is
    then stopped by [ensureLoggedIn] -- and stores the payload of a
    verified token, sent with the prefix [Bearer ] or [bearer ]. *)
Theorem authenticateJWT_stores_verified (verify : string -> option object)
    (user : option object) :
  Auth.authenticateJWT verify None user = user /\
  Auth.authenticateJWT verify (Some "") user = user /\
  (forall authHeader,
      verify (trim (strip_bearer authHeader)) = None ->
      Auth.authenticateJWT verify (Some authHeader) user = user /\
      Auth.ensureLoggedIn (Auth.authenticateJWT verify (Some authHeader) None)
      = Threw UnauthorizedError) /\
  (forall token payload,
      trim token = token ->
      verify token = Some payload ->
      Auth.authenticateJWT verify (Some ("Bearer " +:+ token)) user = Some payload /\
      Auth.authenticateJWT verify (Some ("bearer " +:+ token)) user = Some payload).
Proof.
  split; [reflexivity |]. split; [reflexivity |]. split.
  - intros authHeader Hverify. unfold Auth.authenticateJWT. rewrite Hverify.
    destruct (negb _); split; reflexivity.
  - intros token payload Htrim Hverify. unfold Auth.authenticateJWT.
    destruct (strip_bearer_prefix token) as [-> ->].
    rewrite Htrim, Hverify. split; reflexivity.
Qed.

Lemma authenticateJWT_stores_verified_witness :
  (trim "good" = "good" /\
   verify_good "good" = Some [("username", VStr "test"); ("isAdmin", VBool false)] /\
   Auth.authenticateJWT verify_good (Some "Bearer good") None
   = Some [("username", VStr "test"); ("isAdmin", VBool false)]) /\
  (verify_good (trim (strip_bearer "Bearer bad")) = None /\
   Auth.ensureLoggedIn (Auth.authenticateJWT verify_good (Some "Bearer bad") None)
   = Threw UnauthorizedError).
Proof.
  split.
  - do 2 (split; [reflexivity |]).
    exact (proj1 (proj2 (proj2 (proj2 (authenticateJWT_stores_verified verify_good None)))
                    "good" _ eq_refl eq_refl)).
  - split; [reflexivity |].
    exact (proj2 (proj1 (proj2 (proj2 (authenticateJWT_stores_verified verify_good None)))
                    "Bearer bad" eq_refl)).
Defined.

(** ** The routes *)

Section Routes.

Context `{Printer}.

Lemma guards_refuse {A : Type} (user : option object) (rest : db A) :
  truthy (Auth.user_property user "username")
  && is_true (Auth.user_property user "isAdmin") = false ->
  guarded (Auth.ensureLoggedIn user) (guarded (Auth.isAdmin user) rest)
  = Fail UnauthorizedError.
Proof.
  unfold Auth.ensureLoggedIn, Auth.isAdmin.
  destruct (truthy _); [| reflexivity].
  destruct (is_true _); [discriminate | reflexivity].
Qed.

Lemma guards_pass {A : Type} (user : option object) (rest : db A) :
  truthy (Auth.user_property user "username")
  && is_true (Auth.user_property user "isAdmin") = true ->
  guarded (Auth.ensureLoggedIn user) (guarded (Auth.isAdmin user) rest) = rest.
Proof.
  unfold Auth.ensureLoggedIn, Auth.isAdmin.
  intros [-> ->]%andb_true_iff. reflexivity.
Qed.

(** X11: unless the stored user has a truthy username and [isAdmin]
    exactly [true], POST, PATCH and DELETE on companies and on jobs
    throw [UnauthorizedError] and send no statement, whatever the body
    and the validation. *)
Theorem writes_need_an_admin {S : Type} (exec : S -> query -> list row * S)
    (s : S) (user : option object) :
  truthy (Auth.user_property user "username")
  && is_true (Auth.user_property user "isAdmin") = false ->
  forall validate key req_body,
    run exec (CompanyRouter.post validate user req_body) s
    = (Threw UnauthorizedError, []) /\
    run exec (CompanyRouter.patch validate user key req_body) s
    = (Threw UnauthorizedError, []) /\
    run exec (CompanyRouter.delete user key) s = (Threw UnauthorizedError, []) /\
    run exec (JobRouter.post validate user req_body) s
    = (Threw UnauthorizedError, []) /\
    run exec (JobRouter.patch validate user key req_body) s
    = (Threw UnauthorizedError, []) /\
    run exec (JobRouter.delete user key) s = (Threw UnauthorizedError, []).
Proof.
  intros Huser validate key req_body.
  unfold CompanyRouter.post, CompanyRouter.patch, CompanyRouter.delete,
    JobRouter.post, JobRouter.patch, JobRouter.delete.
  rewrite !guards_refuse by exact Huser. repeat split.
Qed.

(** X12: PATCH by an admin, with an empty body that the schema accepts,
    throws [BadRequestError("No data")] and sends no statement, for a
    company as for a job. *)
Theorem patch_without_data {S : Type} (exec : S -> query -> list row * S)
    (s : S) (validate : object -> option (list string))
    (user : option object) (key : string) :
  truthy (Auth.user_property user "username")
  && is_true (Auth.user_property user "isAdmin") = true ->
  validate [] = None ->
  run exec (CompanyRouter.patch validate user key []) s
  = (Threw (Raised (BadRequestError (Message "No data"))), []) /\
  run exec (JobRouter.patch validate user key []) s
  = (Threw (Raised (BadRequestError (Message "No data"))), []).
Proof.
  intros Huser Hvalid. unfold CompanyRouter.patch, JobRouter.patch.
  rewrite !guards_pass by exact Huser. rewrite Hvalid. split; reflexivity.
Qed.

End Routes.

Lemma writes_need_an_admin_witness :
  let user := Some [("username", VStr "test"); ("isAdmin", VStr "true")] in
  truthy (Auth.user_property user "username")
  && is_true (Auth.user_property user "isAdmin") = false /\
  run empty_database
    (@CompanyRouter.delete no_number_printer user "c1") tt
  = (Threw UnauthorizedError, []).
Proof.
  split; [reflexivity |].
  exact (proj1 (proj2 (proj2
           (@writes_need_an_admin no_number_printer unit empty_database tt
              (Some [("username", VStr "test"); ("isAdmin", VStr "true")])
              eq_refl (fun _ => None) "c1" [])))).
Defined.

Lemma patch_without_data_witness :
  let user := Some [("username", VStr "admin"); ("isAdmin", VBool true)] in
  truthy (Auth.user_property user "username")
  && is_true (Auth.user_property user "isAdmin") = true /\
  run (one_row_database [("handle", VStr "c1")])
    (@CompanyRouter.patch no_number_printer (fun _ => None) user "c1" []) tt
  = (Threw (Raised (BadRequestError (Message "No data"))), []).
Proof.
  split; [reflexivity |].
  exact (proj1 (@patch_without_data no_number_printer unit
                  (one_row_database [("handle", VStr "c1")]) tt (fun _ => None)
                  (Some [("username", VStr "admin"); ("isAdmin", VBool true)])
                  "c1" eq_refl eq_refl)).
Defined.

(** ** The listings through their routes *)

Lemma has_key_set_property (o : object) (key key' : string) (v : value) :
  has_key key' (set_property o key v) = String.eqb key key' || has_key key' o.
Proof.
  unfold has_key. destruct (String.eqb_spec key key') as [<- | Hne].
  - rewrite own_property_set_eq. reflexivity.
  - rewrite own_property_set_ne by exact Hne. reflexivity.
Qed.

Lemma get_set_property (o : object) (key key' : string) (v : value) :
  get_property (set_property o key v) key'
  = if String.eqb key key' then v else get_property o key'.
Proof.
  unfold get_property. destruct (String.eqb_spec key key') as [<- | Hne].
  - rewrite own_property_set_eq. reflexivity.
  - rewrite own_property_set_ne by exact Hne. reflexivity.
Qed.

Section Coercions.

Context `{Engine}.

Lemma has_key_to_number (key key' : string) (q : object) :
  has_key key' (CompanyRoutes.to_number key q) = has_key key' q.
Proof.
  unfold CompanyRoutes.to_number. destruct (has_key key q) eqn:Hin; [| reflexivity].
  rewrite has_key_set_property.
  destruct (String.eqb_spec key key') as [<- | Hne]; [rewrite Hin |]; reflexivity.
Qed.

Lemma get_to_number (key key' : string) (q : object) :
  get_property (CompanyRoutes.to_number key q) key'
  = if String.eqb key key' && has_key key q
    then VNum (Number (get_property q key))
    else get_property q key'.
Proof.
  unfold CompanyRoutes.to_number. destruct (has_key key q) eqn:Hin.
  - rewrite get_set_property, andb_true_r. reflexivity.
  - rewrite andb_false_r. reflexivity.
Qed.


End Coercions.


Section JobListings.

Context `{Engine}.

Lemma has_key_to_boolean (key : string) (q : object) :
  has_key key (JobRouter.to_boolean q) = has_key key q /\
  has_key key (JobRouterBoolean.to_boolean q) = has_key key q.
Proof.
  unfold JobRouter.to_boolean, JobRouterBoolean.to_boolean.
  destruct (has_key "hasEquity" q) eqn:Hin; [| split; reflexivity].
  rewrite !has_key_set_property.
  destruct (String.eqb_spec "hasEquity" key) as [<- | Hne];
    [rewrite Hin |]; split; reflexivity.
Qed.

Lemma get_to_boolean (key : string) (q : object) :
  get_property (JobRouter.to_boolean q) key
  = (if String.eqb "hasEquity" key && has_key "hasEquity" q
     then VBool (strict_equal (get_property q "hasEquity") (VStr "true"))
     else get_property q key) /\
  get_property (JobRouterBoolean.to_boolean q) key
  = (if String.eqb "hasEquity" key && has_key "hasEquity" q
     then VBool (truthy (get_property q "hasEquity"))
     else get_property q key).
Proof.
  unfold JobRouter.to_boolean, JobRouterBoolean.to_boolean.
  destruct (has_key "hasEquity" q) eqn:Hin.
  - rewrite !get_set_property, andb_true_r. split; reflexivity.
  - rewrite andb_false_r. split; reflexivity.
Qed.

Lemma is_true_VBool_eq (b : bool) : is_true (VBool b) = b.
Proof. destruct b; reflexivity. Qed.

(** X14: [GET /jobs] with criteria that the schema accepts sends one
    statement and answers 200 with its rows.  The statement sent is the
    listing with the filters of the keys of the request, in the order
    title, minSalary, hasEquity: title is bound as given, minSalary as
    the number [Number] makes of it, and the equity filter, bound to 0,
    is in the text exactly when the request has hasEquity equal to the
    string [true]. *)
Theorem Job_listing_hasEquity {S : Type}
    (exec : S -> query -> list row * S) (s : S)
    (validate : object -> option (list string)) (req_query : object) :
  let queries :=
    JobRouter.to_boolean (CompanyRoutes.to_number "minSalary" req_query) in
  let applied :=
    by_rules JobRules.rules JobRules.predicate
      (fun key =>
         has_key key req_query &&
         (if String.eqb key "hasEquity"
          then strict_equal (get_property req_query "hasEquity") (VStr "true")
          else true))
      (fun key =>
         if String.eqb key "hasEquity" then VInt 0
         else if String.eqb key "minSalary"
              then VNum (Number (get_property req_query "minSalary"))
              else get_property req_query key) in
  let sent :=
    {| text := Job.statement (whereClause applied); params := values applied |} in
  validate queries = None ->
  run exec (JobRouter.list_all validate req_query) s
  = (Returned {| status := 200; body := (exec s sent).1 |}, [sent]) /\
  includes (text sent) "equity > $"
  = has_key "hasEquity" req_query
    && strict_equal (get_property req_query "hasEquity") (VStr "true").
Proof.
  intros queries applied sent Hvalid.
  assert (Job.build queries = applied) as Hbuild.
  { unfold applied, by_rules, JobRules.rules, Job.build, Job.hasEquity_filter,
      Job.minSalary_filter, Job.title_filter, queries.
    rewrite !(proj1 (has_key_to_boolean _ _)), !(proj1 (get_to_boolean _ _)).
    rewrite ?has_key_to_number, ?get_to_number, ?has_key_to_number.
    cbn [List.filter String.eqb Ascii.eqb Bool.eqb andb].
    destruct (has_key "title" req_query), (has_key "minSalary" req_query),
      (has_key "hasEquity" req_query); cbn [andb]; rewrite ?is_true_VBool_eq;
      try destruct (strict_equal _ _); try destruct (strict_equal _); reflexivity. }
  assert (Job.select queries = sent) as Hsent.
  { unfold Job.select, sent. rewrite Hbuild. reflexivity. }
  split.
  - unfold JobRouter.list_all. fold queries. rewrite Hvalid.
    cbn. rewrite Hsent. destruct (exec s sent) as [rows s']. reflexivity.
  - unfold sent, applied, by_rules, JobRules.rules.
    cbn [List.filter String.eqb Ascii.eqb Bool.eqb andb].
    destruct (has_key "title" req_query), (has_key "minSalary" req_query),
      (has_key "hasEquity" req_query); cbn [andb];
      try destruct (strict_equal _ _); try destruct (strict_equal _); reflexivity.
Qed.

(** X15: in the copy of the jobs route that coerces with [Boolean], the
    statement sent has the equity filter in its text, bound to 0,
    whenever the request has a truthy hasEquity, the string [false]
    included. *)
Theorem Job_listing_Boolean_hasEquity {S : Type}
    (exec : S -> query -> list row * S) (s : S)
    (validate : object -> option (list string)) (req_query : object) :
  let queries :=
    JobRouterBoolean.to_boolean (CompanyRoutes.to_number "minSalary" req_query) in
  let applied :=
    by_rules JobRules.rules JobRules.predicate
      (fun key =>
         has_key key req_query &&
         (if String.eqb key "hasEquity"
          then truthy (get_property req_query "hasEquity")
          else true))
      (fun key =>
         if String.eqb key "hasEquity" then VInt 0
         else if String.eqb key "minSalary"
              then VNum (Number (get_property req_query "minSalary"))
              else get_property req_query key) in
  let sent :=
    {| text := Job.statement (whereClause applied); params := values applied |} in
  validate queries = None ->
  run exec (JobRouterBoolean.list_all validate req_query) s
  = (Returned {| status := 200; body := (exec s sent).1 |}, [sent]) /\
  includes (text sent) "equity > $"
  = has_key "hasEquity" req_query
    && truthy (get_property req_query "hasEquity").
Proof.
  intros queries applied sent Hvalid.
  assert (Job.build queries = applied) as Hbuild.
  { unfold applied, by_rules, JobRules.rules, Job.build, Job.hasEquity_filter,
      Job.minSalary_filter, Job.title_filter, queries.
    rewrite !(proj2 (has_key_to_boolean _ _)), !(proj2 (get_to_boolean _ _)).
    rewrite ?has_key_to_number, ?get_to_number, ?has_key_to_number.
    cbn [List.filter String.eqb Ascii.eqb Bool.eqb andb].
    destruct (has_key "title" req_query), (has_key "minSalary" req_query),
      (has_key "hasEquity" req_query); cbn [andb]; rewrite ?is_true_VBool_eq;
      try destruct (truthy _ _); try destruct (truthy _); reflexivity. }
  assert (Job.select queries = sent) as Hsent.
  { unfold Job.select, sent. rewrite Hbuild. reflexivity. }
  split.
  - unfold JobRouterBoolean.list_all. fold queries. rewrite Hvalid.
    cbn. rewrite Hsent. destruct (exec s sent) as [rows s']. reflexivity.
  - unfold sent, applied, by_rules, JobRules.rules.
    cbn [List.filter String.eqb Ascii.eqb Bool.eqb andb].
    destruct (has_key "title" req_query), (has_key "minSalary" req_query),
      (has_key "hasEquity" req_query); cbn [andb];
      try destruct (truthy _ _); try destruct (truthy _); reflexivity.
Qed.

End JobListings.

Lemma Job_listing_hasEquity_witness :
  let req_query := [("hasEquity", VStr "false"); ("minSalary", VStr "100")] in
  let queries :=
    JobRouter.to_boolean (@CompanyRoutes.to_number digits_engine "minSalary" req_query) in
  let sent :=
    {| text := Job.statement "WHERE salary >= $1"; params := [VInt 100] |} in
  validate_all queries = None /\
  run empty_database
    (@JobRouter.list_all digits_engine validate_all req_query) tt
  = (Returned {| status := 200; body := [] |}, [sent]) /\
  includes (text sent) "equity > $" = false.
Proof.
  split; [reflexivity |].
  exact (@Job_listing_hasEquity digits_engine unit empty_database tt
           validate_all
           [("hasEquity", VStr "false"); ("minSalary", VStr "100")]
           eq_refl).
Defined.

Lemma Job_listing_Boolean_hasEquity_witness :
  let req_query := [("hasEquity", VStr "false"); ("minSalary", VStr "100")] in
  let queries :=
    JobRouterBoolean.to_boolean
      (@CompanyRoutes.to_number digits_engine "minSalary" req_query) in
  let sent :=
    {| text := Job.statement "WHERE salary >= $1 AND equity > $2";
       params := [VInt 100; VInt 0] |} in
  validate_all queries = None /\
  run empty_database
    (@JobRouterBoolean.list_all digits_engine validate_all req_query) tt
  = (Returned {| status := 200; body := [] |}, [sent]) /\
  includes (text sent) "equity > $" = true.
Proof.
  split; [reflexivity |].
  exact (@Job_listing_Boolean_hasEquity digits_engine unit empty_database tt
           validate_all
           [("hasEquity", VStr "false"); ("minSalary", VStr "100")]
           eq_refl).
Defined.

(** ** Examples on small databases *)

Lemma Company_get_never_not_found_witness :
  let handle := VStr "nope" in
  let jobs := {| text := CompanyModel.jobs_text; params := [handle] |} in
  let company := {| text := CompanyModel.company_text; params := [handle] |} in
  head (empty_database (empty_database tt jobs).2 company).1 = None /\
  (run empty_database (@CompanyModel.get no_number_printer handle) tt).1
  = Threw TypeError.
Proof.
  split; [reflexivity |].
  exact (proj1 (proj2 (@Company_get_never_not_found no_number_printer unit
                         empty_database tt (VStr "nope")))
           eq_refl).
Defined.

Lemma not_found_by_key_witness :
  let user := Some [("username", VStr "admin"); ("isAdmin", VBool true)] in
  Auth.ensureLoggedIn user = Returned tt /\
  Auth.isAdmin user = Returned tt /\
  run empty_database (@JobRouter.delete no_number_printer user "7") tt
  = (Threw (NotFoundError (Message "No job: 7")),
     [{| text := JobModel.remove_text; params := [VStr "7"] |}]).
Proof.
  do 2 (split; [reflexivity |]).
  exact (proj1 (proj2 (@not_found_by_key no_number_printer unit empty_database tt "7"))
           (Some [("username", VStr "admin"); ("isAdmin", VBool true)])
           eq_refl eq_refl).
Defined.

(** The token of a header, and an update through its route. *)
Example trim_example :
  trim (strip_bearer "Bearer  abc.def ") = "abc.def" /\
  trim (strip_bearer "bearer abc") = "abc" /\
  trim (strip_bearer "BEARER abc") = "BEARER abc".
Proof. repeat split. Qed.

Example Company_patch_example :
  let user := Some [("username", VStr "admin"); ("isAdmin", VBool true)] in
  let company := [("handle", VStr "c1"); ("name", VStr "New")] in
  run (one_row_database company)
    (@CompanyRouter.patch no_number_printer (fun _ => None) user "c1"
       [("name", VStr "New"); ("numEmployees", VInt 10)]) tt
  = (Returned {| status := 200; body := company |},
     [{| text :=
           CompanyModel.update_text
             (dq +:+ "name" +:+ dq +:+ "=$1, " +:+
              dq +:+ "num_employees" +:+ dq +:+ "=$2")
             "$3";
         params := [VStr "New"; VInt 10; VStr "c1"] |}]).
Proof. reflexivity. Qed.
